(** * Tutor: a round-robin conversation between three LLM participants

    Shallow embedding of the three programs of the repository

      - [main.py]          (module [Main]):        local inference server, batch run
      - [tutor_openai.py]  (module [TutorOpenai]): hosted API, batch run with cost tracking
      - [app.py]           (module [App]):         UI variant, step-wise generator

    and the properties of the conversation engine proved about them.

    Modelling conventions.
      - Python [str] is [string]; an f-string is a concatenation.
      - Python [int] is [Z]; Python [float] is modelled by exact rationals [Q]
        (rounding of binary floating point is outside the model).
      - A [dict] used as a table ([PRICING], a sampling [config]) is a
        [gmap string _]; a [dict] used as a record (an entry of the history,
        a participant) is a [Record].
      - The remote chat-completion endpoint is an oracle [Backend]: the
        outcome of the [n]-th request of a run, either a response or a raised
        exception.  Impure functions thread the list of requests sent so far.
      - [while] loops take a fuel argument; the theorems show which fuel is
        enough for the loop to finish.
      - Console output ([print]) and the pacing [time.sleep] are not modelled.
        Only exceptions derived from [Exception] are modelled; an operator
        interrupt ends the run from outside and is outside the model. *)

From stdpp Require Import gmap strings list pretty.
From Stdlib Require Import Ascii QArith Lqa.

Close Scope Q_scope.
Open Scope Z_scope.

(** ** Python run-time notions *)

Module Py.

(** [str(e)] and the class of a raised exception. *)
Record exn := { exn_class : string; str : string }.

Definition IndexError : exn :=
  {| exn_class := "IndexError"; str := "list index out of range" |}.

(** Outcome of running a loop with fuel. *)
Inductive result (A : Type) :=
| Done (a : A)
| Raised (e : exn)
| OutOfFuel.
Arguments Done {A} a.
Arguments Raised {A} e.
Arguments OutOfFuel {A}.

(** The one-character strings of a line feed and of a double quote. *)
Definition nl : string := String "010"%char EmptyString.
Definition dq : string := String "034"%char EmptyString.

(** [sep.join(lines)] *)
Definition join (sep : string) (lines : list string) : string :=
  String.concat sep lines.

(** [s.startswith(p)] *)
Fixpoint startswith (s p : string) {struct p} : bool :=
  match p with
  | EmptyString => true
  | String a p' =>
    match s with
    | EmptyString => false
    | String b s' => bool_decide (a = b) && startswith s' p'
    end
  end.

(** [needle in s] on strings. *)
Fixpoint contains (needle s : string) : bool :=
  startswith s needle ||
  match s with
  | EmptyString => false
  | String _ s' => contains needle s'
  end.

(** [s.replace(old, new)] for an [old] that is not empty: the occurrences
    of [old] are replaced from the left, without overlap.  [skip] counts the
    characters of an occurrence just replaced that are still to be passed. *)
Fixpoint replace_from (old new : string) (skip : nat) (s : string) : string :=
  match s with
  | EmptyString => EmptyString
  | String c s' =>
    match skip with
    | S skip => replace_from old new skip s'
    | O =>
      if startswith s old
      then new +:+ replace_from old new (String.length old - 1) s'
      else String c (replace_from old new 0 s')
    end
  end.

Definition replace (s old new : string) : string := replace_from old new 0 s.

(** [d.get(key, default)] *)
Definition get {V : Type} (d : gmap string V) (key : string) (dflt : V) : V :=
  default dflt (d !! key).

End Py.

Import Py.

(** ** The chat-completion client (the [openai] package, as far as the
    programs use it) *)

Module OpenAI.

Record Message := { role : string; content : string }.

(** [OpenAI(base_url=..., api_key=...)]; [base_url = None] is the hosted
    service's default URL. *)
Record Client := { base_url : option string; api_key : string }.

(** The arguments of [client.chat.completions.create]. *)
Record Request := {
  client : Client;
  model : string;
  messages : list Message;
  temperature : Q;
  top_p : option Q;
  max_tokens : Q
}.

Record Usage := { prompt_tokens : Z; completion_tokens : Z }.

(** A completion, taken to be well formed (it has a first choice with a
    text, and a usage record): [choices_0_message_content] is
    [response.choices[0].message.content]. *)
Record Response := { choices_0_message_content : string; usage : Usage }.

Inductive Outcome :=
| Returns (response : Response)
| Raises (e : exn).

(** The endpoint as an oracle: the outcome of the [n]-th request. *)
Definition Backend := nat -> Request -> Outcome.

(** [client.chat.completions.create(...)]: the request is appended to the
    log of requests sent so far. *)
Definition create (backend : Backend) (req : Request) (log : list Request)
  : Outcome * list Request :=
  (backend (length log) req, log ++ [req]).

End OpenAI.

(** The persona prompts are the same text in the three files
    ([TEACHER_PROMPT_DEFAULT] and the like in [app.py]). *)

Definition TEACHER_PROMPT : string :=
  "You are Professor Maya, a Python programming teacher teaching Curious George and Handson Alex." +:+ nl +:+
  nl +:+
  "TEACHING PROGRESSION (follow this order):" +:+ nl +:+
  "1. Start with print(" +:+ dq +:+ "Hello, World!" +:+ dq +:+ ") - explain strings and basic output" +:+ nl +:+
  "2. Then teach variables: name = " +:+ dq +:+ "Alice" +:+ dq +:+ ", age = 25" +:+ nl +:+
  "3. Then data types: strings, integers, floats, booleans" +:+ nl +:+
  "4. Keep building progressively based on what students understand" +:+ nl +:+
  nl +:+
  "TEACHING STYLE:" +:+ nl +:+
  "- Give ONE concrete code example per message" +:+ nl +:+
  "- Ask students to try it or explain what it does" +:+ nl +:+
  "- Wait for their responses before moving to next concept" +:+ nl +:+
  "- Keep responses to 2-3 sentences max" +:+ nl +:+
  "- Build on what students say".

Definition STUDENT1_PROMPT : string :=
  "You are Curious George, a beginner learning Python with Professor Maya and Handson Alex." +:+ nl +:+
  "You ask " +:+ dq +:+ "why" +:+ dq +:+ " questions about concepts. You want to understand the theory and purpose behind the code." +:+ nl +:+
  "When Professor Maya shows code, ask questions like " +:+ dq +:+ "Why do we use quotes?" +:+ dq +:+ " or " +:+ dq +:+ "What does this do?" +:+ dq +:+ nl +:+
  "Keep responses brief (2-3 sentences).".

Definition STUDENT2_PROMPT : string :=
  "You are Handson Alex, a beginner learning Python with Professor Maya and Curious George." +:+ nl +:+
  "You learn by doing. When you see code, you want to try variations or ask what happens if you change it." +:+ nl +:+
  "When Professor Maya shows code, ask questions like " +:+ dq +:+ "What if I use numbers?" +:+ dq +:+ " or share what you tried." +:+ nl +:+
  "Keep responses brief (2-3 sentences).".

(** ** main.py *)

Module Main.
Import OpenAI.

Definition client : Client :=
  {| base_url := Some "http://localhost:11434/v1"; api_key := "ollama" |}.

Definition TEACHER_MODEL : string := "llama3.2:latest".
Definition STUDENT1_MODEL : string := "llama3.2:1b".
Definition STUDENT2_MODEL : string := "gemma3:1b".

Definition TEACHER_CONFIG : gmap string Q :=
  {[ "temperature" := (7 # 10)%Q; "top_p" := (9 # 10)%Q; "top_k" := (40 # 1)%Q; "max_tokens" := (150 # 1)%Q ]}.
Definition STUDENT1_CONFIG : gmap string Q :=
  {[ "temperature" := (4 # 10)%Q; "top_p" := (85 # 100)%Q; "top_k" := (50 # 1)%Q; "max_tokens" := (100 # 1)%Q ]}.
Definition STUDENT2_CONFIG : gmap string Q :=
  {[ "temperature" := (9 # 10)%Q; "top_p" := (9 # 10)%Q; "top_k" := (60 # 1)%Q; "max_tokens" := (100 # 1)%Q ]}.

Definition MAX_TURNS : Z := 20.
Definition INITIAL_TOPIC : string :=
  "Let's start learning Python from the very beginning. Show us the first thing every programmer learns!".

(** An element of [participants]. *)
Record Participant := {
  name : string;
  model : string;
  prompt : string;
  config : gmap string Q
}.

(** An element of [conversation_history]. *)
Record Entry := { speaker : string; message : string }.

Definition call_ollama (backend : Backend) (model : string)
    (messages : list Message) (config : option (gmap string Q))
    (log : list Request) : string * list Request :=
  let config :=
    match config with
    | None => {[ "temperature" := (7 # 10)%Q ]}
    | Some config => config
    end in
  let '(outcome, log) :=
    create backend
      {| OpenAI.client := client;
         OpenAI.model := model;
         OpenAI.messages := messages;
         temperature := get config "temperature" (7 # 10)%Q;
         top_p := Some (get config "top_p" (9 # 10)%Q);
         max_tokens := get config "max_tokens" (150 # 1)%Q |} log in
  match outcome with
  | Returns response => (choices_0_message_content response, log)
  | Raises e => ("[Error calling " +:+ model +:+ ": " +:+ str e +:+ "]", log)
  end.

Definition format_conversation (history : list Entry) : string :=
  match history with
  | [] => "No conversation yet."
  | _ =>
    let lines := map (fun entry => speaker entry +:+ ": " +:+ message entry) history in
    join (nl +:+ nl) lines
  end.

(** The local [user_prompt] of [get_next_response]. *)
Definition user_prompt (speaker_name : string)
    (conversation_history : list Entry) : string :=
  let conversation_text := format_conversation conversation_history in
  match conversation_history with
  | [] =>
    "You are " +:+ speaker_name +:+ "." +:+ nl +:+
    "The topic to discuss is: " +:+ INITIAL_TOPIC +:+ nl +:+
    nl +:+
    "Start the conversation by introducing the topic and asking an opening question."
  | _ =>
    "You are " +:+ speaker_name +:+ "." +:+ nl +:+
    nl +:+
    "The conversation so far is:" +:+ nl +:+
    conversation_text +:+ nl +:+
    nl +:+
    "Now respond with what you would like to say next, as " +:+ speaker_name +:+
    ". Be natural and conversational."
  end.

Definition get_next_response (backend : Backend)
    (model system_prompt speaker_name : string)
    (conversation_history : list Entry) (config : option (gmap string Q))
    (log : list Request) : string * list Request :=
  let messages :=
    [ {| role := "system"; content := system_prompt |};
      {| role := "user"; content := user_prompt speaker_name conversation_history |} ] in
  call_ollama backend model messages config log.

(** The list [participants] of [run_conversation]. *)
Definition participants : list Participant :=
  [ {| name := "Professor Maya"; model := TEACHER_MODEL; prompt := TEACHER_PROMPT; config := TEACHER_CONFIG |};
    {| name := "Curious George"; model := STUDENT1_MODEL; prompt := STUDENT1_PROMPT; config := STUDENT1_CONFIG |};
    {| name := "Handson Alex"; model := STUDENT2_MODEL; prompt := STUDENT2_PROMPT; config := STUDENT2_CONFIG |} ].

(** The [while turn < MAX_TURNS] loop of [run_conversation], from the
    state ([turn], [conversation_history]).  The list [participants] and
    the limit [MAX_TURNS], fixed in the source, are parameters of the loop
    so that it can be studied for other values. *)
Fixpoint conversation_loop (backend : Backend)
    (participants : list Participant) (max_turns : Z)
    (fuel : nat) (turn : Z) (conversation_history : list Entry)
    (log : list Request) : result (list Entry * list Request) :=
  match fuel with
  | O => OutOfFuel
  | S fuel =>
    if bool_decide (turn < max_turns) then
      match participants !! Z.to_nat (turn `mod` 3) with
      | None => Raised IndexError
      | Some participant =>
        let '(response, log) :=
          get_next_response backend
            (model participant) (prompt participant) (name participant)
            conversation_history (Some (config participant)) log in
        conversation_loop backend participants max_turns fuel
          (turn + 1)
          (conversation_history ++
             [ {| speaker := name participant; message := response |} ])
          log
      end
    else Done (conversation_history, log)
  end.

(** [run_conversation()]: the history written to [conversation_log.json]
    and the requests sent. *)
Definition run_conversation (backend : Backend) (fuel : nat)
  : result (list Entry * list Request) :=
  conversation_loop backend participants MAX_TURNS fuel 0 [] [].

End Main.

(** ** tutor_openai.py *)

Module TutorOpenai.
Import OpenAI.

(** [OpenAI(api_key=os.getenv("OPENAI_API_KEY"))]: the key comes from the
    process environment. *)
Definition client (OPENAI_API_KEY : string) : Client :=
  {| base_url := None; api_key := OPENAI_API_KEY |}.

Definition TEACHER_MODEL : string := "gpt-4o".
Definition STUDENT1_MODEL : string := "o1-mini".
Definition STUDENT2_MODEL : string := "gpt-4o-mini".

(** A value of the [PRICING] table: prices per million tokens. *)
Record Price := { input : Q; output : Q }.

Definition PRICING : gmap string Price :=
  {[ "gpt-4o" := {| input := (250 # 100)%Q; output := (10 # 1)%Q |};
     "o1-mini" := {| input := (3 # 1)%Q; output := (12 # 1)%Q |};
     "gpt-4o-mini" := {| input := (150 # 1000)%Q; output := (600 # 1000)%Q |} ]}.

Definition MAX_TURNS : Z := 6.
Definition INITIAL_TOPIC : string :=
  "Let's start learning Python from the very beginning. Show us the first thing every programmer learns!".

(** An element of [TokenTracker.interactions]. *)
Record Interaction := {
  model : string;
  input_tokens : Z;
  output_tokens : Z;
  cost : Q
}.

Record TokenTracker := {
  interactions : list Interaction;
  total_input_tokens : Z;
  total_output_tokens : Z;
  total_cost : Q
}.

(** [TokenTracker()] *)
Definition init : TokenTracker :=
  {| interactions := [];
     total_input_tokens := 0;
     total_output_tokens := 0;
     total_cost := 0%Q |}.

(** [self.add_interaction(model, input_tokens, output_tokens)]: the
    returned cost and the tracker after the call. *)
Definition add_interaction (self : TokenTracker) (model : string)
    (input_tokens output_tokens : Z) : Q * TokenTracker :=
  let pricing := get PRICING model {| input := 0%Q; output := 0%Q |} in
  let input_cost := (inject_Z input_tokens / inject_Z 1000000 * input pricing)%Q in
  let output_cost := (inject_Z output_tokens / inject_Z 1000000 * output pricing)%Q in
  let total := (input_cost + output_cost)%Q in
  (total,
   {| interactions :=
        interactions self ++
          [ {| TutorOpenai.model := model;
               TutorOpenai.input_tokens := input_tokens;
               TutorOpenai.output_tokens := output_tokens;
               cost := total |} ];
      total_input_tokens := total_input_tokens self + input_tokens;
      total_output_tokens := total_output_tokens self + output_tokens;
      total_cost := (total_cost self + total)%Q |}).

Definition call_openai (backend : Backend) (OPENAI_API_KEY : string)
    (model : string) (messages : list Message) (config : gmap string Q)
    (tracker : TokenTracker) (log : list Request)
  : string * TokenTracker * list Request :=
  let '(outcome, log) :=
    create backend
      {| OpenAI.client := client OPENAI_API_KEY;
         OpenAI.model := model;
         OpenAI.messages := messages;
         temperature := get config "temperature" (7 # 10)%Q;
         top_p := None;
         max_tokens := get config "max_tokens" (150 # 1)%Q |} log in
  match outcome with
  | Returns response =>
    let usage := usage response in
    let '(_, tracker) :=
      add_interaction tracker model (prompt_tokens usage) (completion_tokens usage) in
    (choices_0_message_content response, tracker, log)
  | Raises e =>
    ("[Error calling " +:+ model +:+ ": " +:+ str e +:+ "]", tracker, log)
  end.

(** An element of [conversation_history]. *)
Record Entry := { speaker : string; message : string }.

Definition format_conversation (history : list Entry) : string :=
  match history with
  | [] => "No conversation yet."
  | _ =>
    let lines := map (fun entry => speaker entry +:+ ": " +:+ message entry) history in
    join (nl +:+ nl) lines
  end.

(** The local [user_prompt] of [get_next_response]. *)
Definition user_prompt (speaker_name : string)
    (conversation_history : list Entry) : string :=
  let conversation_text := format_conversation conversation_history in
  match conversation_history with
  | [] =>
    "You are " +:+ speaker_name +:+ "." +:+ nl +:+
    "The topic to discuss is: " +:+ INITIAL_TOPIC +:+ nl +:+
    nl +:+
    "Start the conversation by introducing the topic and asking an opening question."
  | _ =>
    "You are " +:+ speaker_name +:+ "." +:+ nl +:+
    nl +:+
    "The conversation so far is:" +:+ nl +:+
    conversation_text +:+ nl +:+
    nl +:+
    "Now respond with what you would like to say next, as " +:+ speaker_name +:+
    ". Be natural and conversational."
  end.

Definition get_next_response (backend : Backend) (OPENAI_API_KEY : string)
    (model system_prompt speaker_name : string)
    (conversation_history : list Entry) (config : gmap string Q)
    (tracker : TokenTracker) (log : list Request)
  : string * TokenTracker * list Request :=
  let messages :=
    [ {| role := "system"; content := system_prompt |};
      {| role := "user"; content := user_prompt speaker_name conversation_history |} ] in
  call_openai backend OPENAI_API_KEY model messages config tracker log.

Definition TEACHER_CONFIG : gmap string Q :=
  {[ "temperature" := (7 # 10)%Q; "max_tokens" := (150 # 1)%Q ]}.
Definition STUDENT1_CONFIG : gmap string Q :=
  {[ "temperature" := (4 # 10)%Q; "max_tokens" := (100 # 1)%Q ]}.
Definition STUDENT2_CONFIG : gmap string Q :=
  {[ "temperature" := (9 # 10)%Q; "max_tokens" := (100 # 1)%Q ]}.

(** An element of [participants]; [participant_model] is the key ["model"]
    (the name [model] is the field of [Interaction]). *)
Record Participant := {
  name : string;
  participant_model : string;
  prompt : string;
  config : gmap string Q
}.

(** The list [participants] of [run_conversation]. *)
Definition participants : list Participant :=
  [ {| name := "Professor Maya"; participant_model := TEACHER_MODEL;
       prompt := TEACHER_PROMPT; config := TEACHER_CONFIG |};
    {| name := "Curious George"; participant_model := STUDENT1_MODEL;
       prompt := STUDENT1_PROMPT; config := STUDENT1_CONFIG |};
    {| name := "Handson Alex"; participant_model := STUDENT2_MODEL;
       prompt := STUDENT2_PROMPT; config := STUDENT2_CONFIG |} ].

(** The [while turn < MAX_TURNS] loop of [run_conversation], from the state
    ([turn], [conversation_history], [tracker]); the list [participants] and
    the limit [MAX_TURNS] are parameters, as for [main.py]. *)
Fixpoint conversation_loop (backend : Backend) (OPENAI_API_KEY : string)
    (participants : list Participant) (max_turns : Z)
    (fuel : nat) (turn : Z) (conversation_history : list Entry)
    (tracker : TokenTracker) (log : list Request)
  : result (list Entry * TokenTracker * list Request) :=
  match fuel with
  | O => OutOfFuel
  | S fuel =>
    if bool_decide (turn < max_turns) then
      match participants !! Z.to_nat (turn `mod` 3) with
      | None => Raised IndexError
      | Some participant =>
        let '(response, tracker, log) :=
          get_next_response backend OPENAI_API_KEY
            (participant_model participant) (prompt participant) (name participant)
            conversation_history (config participant) tracker log in
        conversation_loop backend OPENAI_API_KEY participants max_turns fuel
          (turn + 1)
          (conversation_history ++
             [ {| speaker := name participant; message := response |} ])
          tracker log
      end
    else Done (conversation_history, tracker, log)
  end.

(** [run_conversation()]: the history written to
    [conversation_log_openai.json], the tracker that is summarised, and the
    requests sent. *)
Definition run_conversation (backend : Backend) (OPENAI_API_KEY : string)
    (fuel : nat) : result (list Entry * TokenTracker * list Request) :=
  conversation_loop backend OPENAI_API_KEY participants MAX_TURNS fuel 0 [] init [].

(** [main()]: [OPENAI_API_KEY] is [os.getenv("OPENAI_API_KEY")], [None]
    when the variable is not set.  The result is [None] when [main] returns
    before the conversation, and the outcome of [run_conversation] otherwise
    (an exception raised by it is caught and reported by [main]). *)
Definition main (backend : Backend) (OPENAI_API_KEY : option string) (fuel : nat)
  : option (result (list Entry * TokenTracker * list Request)) :=
  match OPENAI_API_KEY with
  | None => None
  | Some api_key =>
    if bool_decide (api_key = EmptyString) || bool_decide (api_key = "sk-your-key-here")
    then None
    else Some (run_conversation backend api_key fuel)
  end.

End TutorOpenai.

(** ** app.py *)

Module App.
Import OpenAI.

(** The values the front-end passes to [run_conversation_step], one field
    per parameter ([current_messages] is never read). *)
Record Inputs := {
  topic : string;
  teacher_source : string; teacher_model : string;
  teacher_temp : Q; teacher_top_p : Q; teacher_prompt : string;
  student1_source : string; student1_model : string;
  student1_temp : Q; student1_top_p : Q; student1_prompt : string;
  student2_source : string; student2_model : string;
  student2_temp : Q; student2_top_p : Q; student2_prompt : string;
  max_turns : Z;
  ollama_url : string;
  api_key : string
}.

Definition DEFAULT_OLLAMA_URL : string := "http://localhost:11434/v1".
Definition TEACHER_MODEL_DEFAULT : string := "llama3.2:latest".
Definition STUDENT1_MODEL_DEFAULT : string := "llama3.2:1b".
Definition STUDENT2_MODEL_DEFAULT : string := "gemma3:1b".
Definition INITIAL_TOPIC_DEFAULT : string :=
  "Let's start learning Python from the very beginning. Show us the first thing every programmer learns!".
Definition MAX_TURNS_DEFAULT : Z := 20.

(** The values of the widgets of the page as it is loaded (the sources are
    [Ollama], the sliders stand at the values of [TEACHER_CONFIG_DEFAULT],
    [STUDENT1_CONFIG_DEFAULT] and [STUDENT2_CONFIG_DEFAULT]), with no key
    in the environment. *)
Definition default_inputs : Inputs :=
  {| topic := INITIAL_TOPIC_DEFAULT;
     teacher_source := "Ollama"; teacher_model := TEACHER_MODEL_DEFAULT;
     teacher_temp := (7 # 10)%Q; teacher_top_p := (9 # 10)%Q;
     teacher_prompt := TEACHER_PROMPT;
     student1_source := "Ollama"; student1_model := STUDENT1_MODEL_DEFAULT;
     student1_temp := (4 # 10)%Q; student1_top_p := (85 # 100)%Q;
     student1_prompt := STUDENT1_PROMPT;
     student2_source := "Ollama"; student2_model := STUDENT2_MODEL_DEFAULT;
     student2_temp := (9 # 10)%Q; student2_top_p := (9 # 10)%Q;
     student2_prompt := STUDENT2_PROMPT;
     max_turns := MAX_TURNS_DEFAULT;
     ollama_url := DEFAULT_OLLAMA_URL;
     api_key := EmptyString |}.

(** An element of [participants]. *)
Record Participant := {
  name : string;
  role : string;
  source : string;
  model : string;
  prompt : string;
  config : gmap string Q;
  avatar : string
}.

Definition call_llm (backend : Backend) (model : string)
    (messages : list Message) (config : gmap string Q)
    (source ollama_url api_key : string) (log : list Request)
  : string * list Request :=
  let client :=
    if bool_decide (source = "OpenAI API")
    then {| base_url := None; OpenAI.api_key := api_key |}
    else {| base_url := Some ollama_url; OpenAI.api_key := "ollama" |} in
  let '(outcome, log) :=
    create backend
      {| OpenAI.client := client;
         OpenAI.model := model;
         OpenAI.messages := messages;
         temperature := get config "temperature" (7 # 10)%Q;
         top_p := Some (get config "top_p" (9 # 10)%Q);
         max_tokens := get config "max_tokens" (150 # 1)%Q |} log in
  match outcome with
  | Returns response => (choices_0_message_content response, log)
  | Raises e =>
    ("[Error calling " +:+ model +:+ " via " +:+ source +:+ ": " +:+ str e +:+ "]", log)
  end.

(** The entries of the internal history are dictionaries with the keys
    ["name"] and ["content"], read with [.get]. *)
Definition format_conversation_for_prompt (history : list (gmap string string))
  : string :=
  match history with
  | [] => "No conversation yet."
  | _ =>
    let lines :=
      map (fun entry =>
             let name := get entry "name" "Unknown" in
             let content := get entry "content" EmptyString in
             name +:+ ": " +:+ content) history in
    join (nl +:+ nl) lines
  end.

(** The list [participants] of [run_conversation_step]. *)
Definition participants (args : Inputs) : list Participant :=
  [ {| name := "Professor Maya"; role := "Teacher";
       source := teacher_source args; model := teacher_model args;
       prompt := teacher_prompt args;
       config := {[ "temperature" := teacher_temp args; "top_p" := teacher_top_p args;
                    "max_tokens" := (150 # 1)%Q ]};
       avatar := "ğŸ‘©â€ğŸ«" |};
    {| name := "Curious George"; role := "Student";
       source := student1_source args; model := student1_model args;
       prompt := student1_prompt args;
       config := {[ "temperature" := student1_temp args; "top_p" := student1_top_p args;
                    "max_tokens" := (100 # 1)%Q ]};
       avatar := "ğŸµ" |};
    {| name := "Handson Alex"; role := "Student";
       source := student2_source args; model := student2_model args;
       prompt := student2_prompt args;
       config := {[ "temperature" := student2_temp args; "top_p" := student2_top_p args;
                    "max_tokens" := (100 # 1)%Q ]};
       avatar := "ğŸ§‘â€ğŸ’»" |} ].

(** The local [user_prompt] of the loop body. *)
Definition user_prompt (topic : string) (participant : Participant)
    (conversation_history_internal : list (gmap string string)) : string :=
  let conversation_text := format_conversation_for_prompt conversation_history_internal in
  match conversation_history_internal with
  | [] =>
    "You are " +:+ name participant +:+ "." +:+ nl +:+
    "The topic to discuss is: " +:+ topic +:+ nl +:+
    nl +:+
    "Start the conversation by introducing the topic and asking an opening question."
  | _ =>
    "You are " +:+ name participant +:+ "." +:+ nl +:+
    nl +:+
    "The conversation so far is:" +:+ nl +:+
    conversation_text +:+ nl +:+
    nl +:+
    "Now respond with what you would like to say next, as " +:+ name participant +:+
    ". Be natural and conversational."
  end.

(** *** The generator

    [run_conversation_step] is a generator function: calling it creates a
    suspended frame, and every [next] runs it up to the following [yield].
    The frame holds the locals of the function and the point where it is
    suspended. *)

Inductive Point :=
| AtStart       (* created, not yet run *)
| AtYield       (* suspended at [yield messages] *)
| Finished.     (* returned or raised *)

Record Frame := {
  point : Point;
  turn : Z;
  messages : list Message;
  conversation_history_internal : list (gmap string string)
}.

(** What [next] gives back to the consumer. *)
Inductive Resumption :=
| Yield (messages : list Message)
| StopIteration
| Raise (e : exn).

(** [run_conversation_step(...)] *)
Definition run_conversation_step : Frame :=
  {| point := AtStart; turn := 0; messages := [];
     conversation_history_internal := [] |}.

(** One pass through the body of the [while] loop, from the loop test to
    the [yield]. *)
Definition loop_from_test (backend : Backend) (args : Inputs) (turn : Z)
    (messages : list Message)
    (conversation_history_internal : list (gmap string string))
    (log : list Request) : Resumption * Frame * list Request :=
  if bool_decide (turn < max_turns args) then
    match participants args !! Z.to_nat (turn `mod` 3) with
    | None =>
      (Raise IndexError,
       {| point := Finished; turn := turn; messages := messages;
          conversation_history_internal := conversation_history_internal |},
       log)
    | Some participant =>
      let user_prompt := user_prompt (topic args) participant conversation_history_internal in
      let system_prompt := prompt participant in
      let '(response_text, log) :=
        call_llm backend (model participant)
          [ {| OpenAI.role := "system"; content := system_prompt |};
            {| OpenAI.role := "user"; content := user_prompt |} ]
          (config participant) (source participant)
          (ollama_url args) (api_key args) log in
      let conversation_history_internal :=
        conversation_history_internal ++
          [ {[ "name" := name participant; "content" := response_text ]} ] in
      let formatted_content :=
        "**" +:+ name participant +:+ "** " +:+ avatar participant +:+ ":" +:+
        nl +:+ nl +:+ response_text in
      let messages :=
        messages ++ [ {| OpenAI.role := "assistant"; content := formatted_content |} ] in
      (Yield messages,
       {| point := AtYield; turn := turn; messages := messages;
          conversation_history_internal := conversation_history_internal |},
       log)
    end
  else
    (StopIteration,
     {| point := Finished; turn := turn; messages := messages;
        conversation_history_internal := conversation_history_internal |},
     log).

(** [next(generator)]: from the start the frame enters the loop; from a
    [yield] it first runs [turn += 1]. *)
Definition next (backend : Backend) (args : Inputs) (g : Frame)
    (log : list Request) : Resumption * Frame * list Request :=
  match point g with
  | AtStart =>
    loop_from_test backend args (turn g) (messages g)
      (conversation_history_internal g) log
  | AtYield =>
    loop_from_test backend args (turn g + 1) (messages g)
      (conversation_history_internal g) log
  | Finished => (StopIteration, g, log)
  end.

(** The consumer of the generator (the front-end): it asks for the next
    value until the generator is exhausted.  Every [yield] hands out the same
    list object [messages], which the generator goes on appending to; the
    front-end renders it at once, and [shown] records what it holds at the
    time of each [yield].  The result is the exhausted frame, the lists shown
    in order, and the requests sent. *)
Fixpoint consume (backend : Backend) (args : Inputs) (fuel : nat)
    (g : Frame) (shown : list (list Message)) (log : list Request)
  : result (Frame * list (list Message) * list Request) :=
  match fuel with
  | O => OutOfFuel
  | S fuel =>
    match next backend args g log with
    | (Yield messages, g, log) =>
      consume backend args fuel g (shown ++ [messages]) log
    | (StopIteration, g, log) => Done (g, shown, log)
    | (Raise e, _, _) => Raised e
    end
  end.

(** *** The model lists of the page *)

(** What [requests.get(api_url, timeout=2)] gives: [json] is the outcome of
    [response.json()], [None] when it raises; the parsed object may or may
    not have the key ["models"], a list of objects read at the key ["name"]. *)
Record HttpResponse := {
  status_code : Z;
  json : option (option (list (gmap string string)))
}.

(** The outcome of [client.models.list()]: the [id]s of the models, or an
    exception. *)
Inductive Listing :=
| Listed (ids : list string)
| ListingRaises (e : exn).

(** The two ways to the local server: the HTTP request for a URL ([None]
    when [requests.get] raises) and the client listing for a base URL. *)
Record Network := {
  http_get : string -> option HttpResponse;
  models_list : string -> Listing
}.

(** The local [api_url] of [get_ollama_models]. *)
Definition api_url (base_url : string) : string :=
  let api_url := replace base_url "/v1" "/api/tags" in
  if bool_decide (api_url = base_url) then base_url +:+ "/api/tags" else api_url.

(** The first [try] block of [get_ollama_models]: [Some names] when it
    returns, [None] when it falls through (status other than 200) or an
    exception is swallowed by the bare [except]. *)
Definition direct_listing (net : Network) (base_url : string) : option (list string) :=
  match http_get net (api_url base_url) with
  | None => None
  | Some response =>
    if bool_decide (status_code response = 200) then
      match json response with
      | None => None
      | Some data => mapM (fun model => model !! "name") (default [] data)
      end
    else None
  end.

Definition get_ollama_models (net : Network) (base_url : string) : list string :=
  match direct_listing net base_url with
  | Some names => names
  | None =>
    match models_list net base_url with
    | Listed ids => ids
    | ListingRaises e => ["llama3.2:latest"; "llama3.2:1b"; "gemma:2b"]
    end
  end.

Definition get_openai_models : list string :=
  ["gpt-4o"; "gpt-4o-mini"; "o1-preview"; "o1-mini"; "gpt-3.5-turbo"].

(** The arguments of [gr.Dropdown(...)]. *)
Record Dropdown := {
  choices : list string;
  value : option string;
  interactive : bool;
  allow_custom_value : bool
}.

Definition update_model_dropdown (net : Network) (source ollama_url : string)
  : Dropdown :=
  let models :=
    if bool_decide (source = "OpenAI API") then get_openai_models
    else get_ollama_models net ollama_url in
  let models :=
    match models with
    | [] => ["Error: No models found"]
    | _ => models
    end in
  {| choices := models;
     value := match models with m :: _ => Some m | [] => None end;
     interactive := true;
     allow_custom_value := false |}.

End App.

(** ** Vocabulary of the statements *)

(** [occurs c s]: the character [c] occurs in [s]. *)
Fixpoint occurs (c : ascii) (s : string) : bool :=
  match s with
  | EmptyString => false
  | String c' s' => bool_decide (c = c') || occurs c s'
  end.

(** The line feed as a character. *)
Definition LF : ascii := "010"%char.

(** The placeholder of [format_conversation]. *)
Definition PLACEHOLDER : string := "No conversation yet.".

(** The names of the three participants, the same in the three programs. *)
Definition NAMES : list string := ["Professor Maya"; "Curious George"; "Handson Alex"].

(** The sum of the costs, and of the token counts, of recorded interactions;
    the costs are added from the left, starting from zero, as the running
    total is. *)
Definition sum_costs (l : list TutorOpenai.Interaction) : Q :=
  foldl (fun acc r => (acc + TutorOpenai.cost r)%Q) 0%Q l.

Definition sum_tokens (f : TutorOpenai.Interaction -> Z)
    (l : list TutorOpenai.Interaction) : Z :=
  foldr (fun r acc => f r + acc) 0 l.

(** The aggregates of a tracker agree with its list of interactions. *)
Definition tracker_inv (t : TutorOpenai.TokenTracker) : Prop :=
  TutorOpenai.total_input_tokens t
  = sum_tokens TutorOpenai.input_tokens (TutorOpenai.interactions t) /\
  TutorOpenai.total_output_tokens t
  = sum_tokens TutorOpenai.output_tokens (TutorOpenai.interactions t) /\
  TutorOpenai.total_cost t = sum_costs (TutorOpenai.interactions t).

(** A sequence of recordings [(model, input_tokens, output_tokens)]. *)
Definition record_all (tracker : TutorOpenai.TokenTracker)
    (calls : list (string * Z * Z)) : TutorOpenai.TokenTracker :=
  foldl (fun t '(model, input_tokens, output_tokens) =>
           snd (TutorOpenai.add_interaction t model input_tokens output_tokens))
        tracker calls.

(** What [call_ollama] and [call_llm] return for an outcome of the request. *)
Definition main_reply (model : string) (outcome : OpenAI.Outcome) : string :=
  match outcome with
  | OpenAI.Returns response => OpenAI.choices_0_message_content response
  | OpenAI.Raises e => "[Error calling " +:+ model +:+ ": " +:+ str e +:+ "]"
  end.

Definition app_reply (model source : string) (outcome : OpenAI.Outcome) : string :=
  match outcome with
  | OpenAI.Returns response => OpenAI.choices_0_message_content response
  | OpenAI.Raises e =>
    "[Error calling " +:+ model +:+ " via " +:+ source +:+ ": " +:+ str e +:+ "]"
  end.

(** The two messages of a request. *)
Definition system_message (system_prompt : string) : OpenAI.Message :=
  {| OpenAI.role := "system"; OpenAI.content := system_prompt |}.

Definition user_message (user_prompt : string) : OpenAI.Message :=
  {| OpenAI.role := "user"; OpenAI.content := user_prompt |}.

(** What the chatbot shows for a reply. *)
Definition chat_message (p : App.Participant) (response_text : string)
  : OpenAI.Message :=
  {| OpenAI.role := "assistant";
     OpenAI.content := "**" +:+ App.name p +:+ "** " +:+ App.avatar p +:+ ":" +:+
                       nl +:+ nl +:+ response_text |}.

(** A transcript as the sequence of its (speaker, content) pairs, for the
    history of [main.py] and for the internal history of [app.py]. *)
Definition main_pairs (history : list Main.Entry) : list (string * string) :=
  map (fun entry => (Main.speaker entry, Main.message entry)) history.

Definition app_pairs (history : list (gmap string string)) : list (string * string) :=
  map (fun entry => (get entry "name" "Unknown", get entry "content" EmptyString)) history.

(** The transcript of a finished batch run, and of a generator consumed to
    its end. *)
Definition batch_transcript (backend : OpenAI.Backend)
    (participants : list Main.Participant) (max_turns : Z) (fuel : nat)
  : option (list (string * string)) :=
  match Main.conversation_loop backend participants max_turns fuel 0 [] [] with
  | Done (history, _) => Some (main_pairs history)
  | _ => None
  end.

Definition incremental_transcript (backend : OpenAI.Backend) (args : App.Inputs)
    (fuel : nat) : option (list (string * string)) :=
  match App.consume backend args fuel App.run_conversation_step [] [] with
  | Done (g, _, _) => Some (app_pairs (App.conversation_history_internal g))
  | _ => None
  end.

(** The turn a suspended generator tests next. *)
Definition next_turn (g : App.Frame) : Z :=
  match App.point g with
  | App.AtYield => App.turn g + 1
  | _ => App.turn g
  end.

(** A participant of [main.py] and one of [app.py] are the same participant:
    same name, model and system prompt, same sampling parameters sent, and
    the one of [app.py] is not served by the hosted API. *)
Definition same_participant (pm : Main.Participant) (pa : App.Participant) : Prop :=
  Main.name pm = App.name pa /\
  Main.model pm = App.model pa /\
  Main.prompt pm = App.prompt pa /\
  get (Main.config pm) "temperature" (7 # 10)%Q = get (App.config pa) "temperature" (7 # 10)%Q /\
  get (Main.config pm) "top_p" (9 # 10)%Q = get (App.config pa) "top_p" (9 # 10)%Q /\
  get (Main.config pm) "max_tokens" (150 # 1)%Q = get (App.config pa) "max_tokens" (150 # 1)%Q /\
  App.source pa <> "OpenAI API".


Definition one_participant : list Main.Participant :=
  [ {| Main.name := "Ann"; Main.model := "m"; Main.prompt := "You are Ann."; Main.config := ∅ |} ].

(** Two stub endpoints: one that refuses every connection, and one that
    answers the [n]-th request with the text [<model>:<n>]. *)
Definition connection_error : exn :=
  {| exn_class := "APIConnectionError"; str := "Connection error." |}.

Definition failing_backend : OpenAI.Backend :=
  fun _ _ => OpenAI.Raises connection_error.

Definition echo_backend : OpenAI.Backend :=
  fun n req =>
    OpenAI.Returns
      {| OpenAI.choices_0_message_content := OpenAI.model req +:+ ":" +:+ pretty n;
         OpenAI.usage := {| OpenAI.prompt_tokens := 120; OpenAI.completion_tokens := 40 |} |}.

(** The inputs [args] with another limit of turns. *)
Definition with_max_turns (args : App.Inputs) (max_turns : Z) : App.Inputs :=
  {| App.topic := App.topic args;
     App.teacher_source := App.teacher_source args;
     App.teacher_model := App.teacher_model args;
     App.teacher_temp := App.teacher_temp args;
     App.teacher_top_p := App.teacher_top_p args;
     App.teacher_prompt := App.teacher_prompt args;
     App.student1_source := App.student1_source args;
     App.student1_model := App.student1_model args;
     App.student1_temp := App.student1_temp args;
     App.student1_top_p := App.student1_top_p args;
     App.student1_prompt := App.student1_prompt args;
     App.student2_source := App.student2_source args;
     App.student2_model := App.student2_model args;
     App.student2_temp := App.student2_temp args;
     App.student2_top_p := App.student2_top_p args;
     App.student2_prompt := App.student2_prompt args;
     App.max_turns := max_turns;
     App.ollama_url := App.ollama_url args;
     App.api_key := App.api_key args |}.

(** An endpoint that refuses the second request of a run (index 1) and
    answers the others. *)
Definition flaky_backend : OpenAI.Backend :=
  fun n req => if bool_decide (n = 1%nat) then OpenAI.Raises connection_error
               else echo_backend n req.

(** The tracker after a call of [call_openai] for [model] whose request had
    the given outcome. *)
Definition track (model : string) (outcome : OpenAI.Outcome)
    (tracker : TutorOpenai.TokenTracker) : TutorOpenai.TokenTracker :=
  match outcome with
  | OpenAI.Returns response =>
    snd (TutorOpenai.add_interaction tracker model
           (OpenAI.prompt_tokens (OpenAI.usage response))
           (OpenAI.completion_tokens (OpenAI.usage response)))
  | OpenAI.Raises _ => tracker
  end.

(** The model and the outcome of each request of [sent], the first of them
    being the request number [start] of the run. *)
Definition outcomes_from (backend : OpenAI.Backend) (start : nat)
    (sent : list OpenAI.Request) : list (string * OpenAI.Outcome) :=
  imap (fun k req => (OpenAI.model req, backend (start + k)%nat req)) sent.

(** The recordings [(model, prompt_tokens, completion_tokens)] of the
    requests that were answered, in order. *)
Definition answered (steps : list (string * OpenAI.Outcome)) : list (string * Z * Z) :=
  omap (fun step =>
          match step.2 with
          | OpenAI.Returns response =>
            Some (step.1,
                  OpenAI.prompt_tokens (OpenAI.usage response),
                  OpenAI.completion_tokens (OpenAI.usage response))
          | OpenAI.Raises _ => None
          end) steps.

(** The interaction that [add_interaction] records for a call. *)
Definition interaction_of (call : string * Z * Z) : TutorOpenai.Interaction :=
  {| TutorOpenai.model := call.1.1;
     TutorOpenai.input_tokens := call.1.2;
     TutorOpenai.output_tokens := call.2;
     TutorOpenai.cost :=
       fst (TutorOpenai.add_interaction TutorOpenai.init call.1.1 call.1.2 call.2) |}.

(** The outcome of a run of [tutor_openai.py] without its tracker. *)
Definition forget_tracker
    (r : result (list TutorOpenai.Entry * TutorOpenai.TokenTracker * list OpenAI.Request))
  : result (list TutorOpenai.Entry * list OpenAI.Request) :=
  match r with
  | Done (history, _, log) => Done (history, log)
  | Raised e => Raised e
  | OutOfFuel => OutOfFuel
  end.

(** [s[n:]] *)
Fixpoint string_drop (n : nat) (s : string) : string :=
  match n, s with
  | O, _ => s
  | S n, String _ s' => string_drop n s'
  | S _, EmptyString => EmptyString
  end.

(** An endpoint that answers, with a usage that grows with the request
    number, except for the request number 1, which it refuses. *)
Definition metered_backend : OpenAI.Backend :=
  fun n req =>
    if bool_decide (n = 1%nat) then OpenAI.Raises connection_error
    else OpenAI.Returns
           {| OpenAI.choices_0_message_content := OpenAI.model req +:+ ":" +:+ pretty n;
              OpenAI.usage := {| OpenAI.prompt_tokens := 100 * Z.of_nat (S n);
                                 OpenAI.completion_tokens := 10 * Z.of_nat (S n) |} |}.

(** * Properties *)

(** ** Strings *)

Section Strings.

(** The two equations of [+:+] (stdpp keeps [simpl] from unfolding it). *)
Lemma string_app_nil_l (t : string) : EmptyString +:+ t = t.
Proof. reflexivity. Qed.

Lemma string_app_cons (c : ascii) (s t : string) : String c s +:+ t = String c (s +:+ t).
Proof. reflexivity. Qed.

Lemma string_app_nil_r (s : string) : s +:+ EmptyString = s.
Proof.
  induction s as [|c s IH]; [reflexivity|]. now rewrite string_app_cons, IH.
Qed.

Lemma string_app_assoc (a b c : string) : (a +:+ b) +:+ c = a +:+ b +:+ c.
Proof.
  induction a as [|x a IH]; [reflexivity|]. now rewrite !string_app_cons, IH.
Qed.

Lemma string_app_inv_tail (a b t : string) : a +:+ t = b +:+ t -> a = b.
Proof.
  intros H.
  assert (Hl : forall s u, String.list_ascii_of_string (s +:+ u)
               = (String.list_ascii_of_string s ++ String.list_ascii_of_string u)%list).
  { intros s u. induction s as [|x s IH]; [reflexivity|].
    rewrite string_app_cons. simpl. now rewrite IH. }
  apply (f_equal String.list_ascii_of_string) in H. rewrite !Hl in H.
  apply (inj (λ l, l ++ String.list_ascii_of_string t)%list) in H.
  rewrite <- (String.string_of_list_ascii_of_string a), <- (String.string_of_list_ascii_of_string b).
  now rewrite H.
Qed.

Lemma startswith_app (a b : string) : startswith (a +:+ b) a = true.
Proof.
  induction a as [|x a IH]; [reflexivity|]. rewrite string_app_cons. simpl.
  now rewrite bool_decide_eq_true_2.
Qed.

Lemma startswith_spec (s a : string) :
  startswith s a = true <-> exists t, s = a +:+ t.
Proof.
  revert s. induction a as [|x a IH]; intros s.
  - split; [intros _; now exists s | reflexivity].
  - destruct s as [|y s]; simpl.
    + split; [discriminate | intros [t Ht]; discriminate].
    + rewrite andb_true_iff, bool_decide_eq_true, IH.
      split.
      * intros [-> [t ->]]. now exists t.
      * intros [t Ht]. rewrite string_app_cons in Ht. injection Ht as -> ->. eauto.
Qed.

Lemma contains_startswith (n s : string) :
  startswith s n = true -> contains n s = true.
Proof. intros H. destruct s; simpl in *; rewrite H; reflexivity. Qed.

Lemma contains_app_r (n a s : string) :
  contains n s = true -> contains n (a +:+ s) = true.
Proof.
  intros H. induction a as [|x a IH]; [exact H|].
  rewrite string_app_cons. simpl. rewrite IH. apply orb_true_r.
Qed.

(** [contains] is the substring relation. *)
Lemma contains_spec (n s : string) :
  contains n s = true <-> exists pre post, s = pre +:+ n +:+ post.
Proof.
  split.
  - induction s as [|x s IH]; simpl; intros H.
    + rewrite orb_false_r in H. apply startswith_spec in H as [t Ht].
      exists EmptyString, t. exact Ht.
    + apply orb_true_iff in H as [H|H].
      * apply startswith_spec in H as [t Ht]. exists EmptyString, t. exact Ht.
      * destruct (IH H) as (pre & post & ->). now exists (String x pre), post.
  - intros (pre & post & ->).
    apply contains_app_r, contains_startswith, startswith_app.
Qed.

(** A needle without line feed does not see across a line feed. *)
Lemma startswith_line (n a b : string) :
  occurs LF n = false ->
  startswith (a +:+ String LF b) n = startswith a n.
Proof.
  revert a. induction n as [|c n IH]; intros a Hn; [reflexivity|].
  simpl in Hn. apply orb_false_iff in Hn as [Hc Hn].
  apply bool_decide_eq_false in Hc.
  destruct a as [|x a]; rewrite ?string_app_nil_l, ?string_app_cons; simpl.
  - apply andb_false_iff. left. apply bool_decide_eq_false. congruence.
  - now rewrite IH.
Qed.

Lemma contains_line (n a b : string) :
  occurs LF n = false ->
  contains n (a +:+ String LF b) = contains n a || contains n b.
Proof.
  intros Hn. induction a as [|x a IH].
  - rewrite string_app_nil_l. cbn [contains]. rewrite orb_false_r.
    rewrite <- (startswith_line n EmptyString b Hn). reflexivity.
  - rewrite string_app_cons. cbn [contains]. rewrite IH.
    rewrite <- (startswith_line n (String x a) b Hn), string_app_cons.
    now rewrite !orb_assoc.
Qed.

End Strings.

(** ** The provider client: failures become text *)

Section ProviderClient.
Import OpenAI.

Variable backend : Backend.


End ProviderClient.



(** ** The prompt synthesizer *)

Section Synthesizer.

Lemma contains_in_context (n s pre post : string) :
  contains n s = true -> contains n (pre +:+ s +:+ post) = true.
Proof.
  intros (a & b & ->)%contains_spec. apply contains_spec.
  exists (pre +:+ a), (b +:+ post). now rewrite !string_app_assoc.
Qed.

Lemma contains_app_l (n s t : string) :
  contains n s = true -> contains n (s +:+ t) = true.
Proof. intros H. now apply (contains_in_context n s EmptyString t). Qed.

(** Every joined line is part of the joined text. *)
Lemma contains_join (sep line : string) (lines : list string) :
  line ∈ lines -> contains line (join sep lines) = true.
Proof.
  unfold join. induction lines as [|x xs IH]; intros Hin.
  - now apply elem_of_nil in Hin.
  - destruct xs as [|y ys].
    + apply list_elem_of_singleton in Hin as ->. simpl.
      rewrite <- (string_app_nil_r x) at 2.
      apply (contains_in_context x x EmptyString EmptyString).
      apply contains_startswith. rewrite <- (string_app_nil_r x) at 1. apply startswith_app.
    + change (String.concat sep (x :: y :: ys))
        with (x +:+ sep +:+ String.concat sep (y :: ys)).
      apply elem_of_cons in Hin as [->|Hin].
      * apply contains_startswith, startswith_app.
      * apply contains_app_r, contains_app_r, IH, Hin.
Qed.

(** The user message for a history that is not empty, in [main.py]. *)
Lemma main_user_prompt_later (speaker_name : string) (history : list Main.Entry) :
  history <> [] ->
  Main.user_prompt speaker_name history
  = "You are " +:+ speaker_name +:+ "." +:+ nl +:+ nl +:+
    "The conversation so far is:" +:+ nl +:+
    join (nl +:+ nl)
      (map (fun entry => Main.speaker entry +:+ ": " +:+ Main.message entry) history)
    +:+ nl +:+ nl +:+
    "Now respond with what you would like to say next, as " +:+ speaker_name +:+
    ". Be natural and conversational.".
Proof. destruct history; [congruence | reflexivity]. Qed.

Lemma tutor_user_prompt_later (speaker_name : string) (history : list TutorOpenai.Entry) :
  history <> [] ->
  TutorOpenai.user_prompt speaker_name history
  = "You are " +:+ speaker_name +:+ "." +:+ nl +:+ nl +:+
    "The conversation so far is:" +:+ nl +:+
    join (nl +:+ nl)
      (map (fun entry => TutorOpenai.speaker entry +:+ ": " +:+ TutorOpenai.message entry)
           history)
    +:+ nl +:+ nl +:+
    "Now respond with what you would like to say next, as " +:+ speaker_name +:+
    ". Be natural and conversational.".
Proof. destruct history; [congruence | reflexivity]. Qed.

(** C6: for a history that is not empty, the user message is the line
    naming the speaker, the whole history rendered as one
    [<speaker>: <message>] line per entry, the lines joined by a blank
    line, and the instruction to respond naturally as the speaker; the line
    of every entry occurs in it in full. *)
Theorem user_message_holds_whole_history
    (speaker_name : string) (history : list Main.Entry) :
  history <> [] ->
  Main.format_conversation history
  = join (nl +:+ nl)
      (map (fun entry => Main.speaker entry +:+ ": " +:+ Main.message entry) history) /\
  Main.user_prompt speaker_name history
  = "You are " +:+ speaker_name +:+ "." +:+ nl +:+ nl +:+
    "The conversation so far is:" +:+ nl +:+
    Main.format_conversation history +:+ nl +:+ nl +:+
    "Now respond with what you would like to say next, as " +:+ speaker_name +:+
    ". Be natural and conversational." /\
  (forall entry, entry ∈ history ->
     contains (Main.speaker entry +:+ ": " +:+ Main.message entry)
       (Main.user_prompt speaker_name history) = true).
Proof.
  intros Hne. split; [|split].
  - destruct history; [congruence | reflexivity].
  - destruct history; [congruence | reflexivity].
  - intros entry Hin. rewrite main_user_prompt_later by exact Hne.
    do 7 apply contains_app_r. apply contains_app_l, contains_join.
    apply (list_elem_of_fmap_2
             (fun entry => Main.speaker entry +:+ ": " +:+ Main.message entry)).
    exact Hin.
Qed.

End Synthesizer.

Lemma user_message_holds_whole_history_witness :
  [ {| Main.speaker := "Professor Maya"; Main.message := "print('Hello, World!')" |};
    {| Main.speaker := "Curious George"; Main.message := "Why the quotes?" |} ] <> [] /\
  contains ("Curious George" +:+ ": " +:+ "Why the quotes?")
    (Main.user_prompt "Handson Alex"
       [ {| Main.speaker := "Professor Maya"; Main.message := "print('Hello, World!')" |};
         {| Main.speaker := "Curious George"; Main.message := "Why the quotes?" |} ]) = true.
Proof.
  split; [discriminate|].
  refine (proj2 (proj2 (user_message_holds_whole_history "Handson Alex" _ _))
            {| Main.speaker := "Curious George"; Main.message := "Why the quotes?" |} _).
  - discriminate.
  - apply elem_of_cons. right. apply elem_of_cons. now left.
Defined.

(** *** The opening message *)

(** C5, as stated, fails: the opening message names its speaker, so the one
    built for Professor Maya is not the one built for Curious George. *)
Lemma opening_message_names_speaker :
  Main.user_prompt "Professor Maya" [] <> Main.user_prompt "Curious George" [].
Proof.
  intros H. apply String.eqb_eq in H. vm_compute in H. discriminate H.
Qed.

(** C5 (amended): on an empty history the user message is the fixed text
    introducing [INITIAL_TOPIC], with the name of the speaker in its first
    line; it depends on the participant through the name only, so two
    participants get the same opening message exactly when they have the
    same name. *)
Theorem opening_message_fixed_up_to_name (p q : Main.Participant) (n m : string) :
  Main.user_prompt (Main.name p) []
  = "You are " +:+ Main.name p +:+ "." +:+ nl +:+
    "The topic to discuss is: " +:+ Main.INITIAL_TOPIC +:+ nl +:+ nl +:+
    "Start the conversation by introducing the topic and asking an opening question." /\
  (Main.user_prompt (Main.name p) [] = Main.user_prompt (Main.name q) []
   <-> Main.name p = Main.name q) /\
  TutorOpenai.user_prompt n []
  = "You are " +:+ n +:+ "." +:+ nl +:+
    "The topic to discuss is: " +:+ TutorOpenai.INITIAL_TOPIC +:+ nl +:+ nl +:+
    "Start the conversation by introducing the topic and asking an opening question." /\
  (TutorOpenai.user_prompt n [] = TutorOpenai.user_prompt m [] <-> n = m).
Proof.
  assert (Hinj : forall a b rest : string,
             "You are " +:+ a +:+ rest = "You are " +:+ b +:+ rest -> a = b).
  { intros a b rest H. apply (inj (String.app "You are ")) in H.
    now apply string_app_inv_tail in H. }
  repeat split; try (intros H; now rewrite H).
  - intros H. cbn [Main.user_prompt] in H. now apply Hinj in H.
  - intros H. cbn [TutorOpenai.user_prompt] in H. now apply Hinj in H.
Qed.

(** *** The placeholder of [format_conversation] *)

Section Placeholder.

(** A text framed the way the later user messages are framed shows the
    needle only where the framed text does. *)
Lemma contains_framed (n head title text tail : string) :
  occurs LF n = false ->
  contains n EmptyString = false ->
  contains n head = false ->
  contains n title = false ->
  contains n tail = false ->
  contains n (head +:+ nl +:+ nl +:+ title +:+ nl +:+ text +:+ nl +:+ nl +:+ tail)
  = contains n text.
Proof.
  intros Hn He Hh Ht Hl.
  assert (Hblank : forall b, contains n (String LF b) = contains n b).
  { intros b. now rewrite <- (string_app_nil_l (String LF b)), contains_line, He. }
  unfold nl. rewrite !string_app_cons, !string_app_nil_l.
  rewrite (contains_line n head), Hh, Hblank by exact Hn.
  rewrite (contains_line n title), Ht by exact Hn.
  rewrite (contains_line n text), Hblank, Hl by exact Hn.
  cbn [orb]. now rewrite orb_false_r.
Qed.

Lemma main_placeholder_later (speaker_name : string) (history : list Main.Entry) :
  speaker_name ∈ NAMES -> history <> [] ->
  contains PLACEHOLDER (Main.user_prompt speaker_name history)
  = contains PLACEHOLDER (Main.format_conversation history).
Proof.
  intros Hname Hne. rewrite main_user_prompt_later by exact Hne.
  replace (Main.format_conversation history)
    with (join (nl +:+ nl)
            (map (fun entry => Main.speaker entry +:+ ": " +:+ Main.message entry) history))
    by (destruct history; [congruence | reflexivity]).
  rewrite <- (string_app_assoc "You are "), <- (string_app_assoc ("You are " +:+ speaker_name)).
  unfold NAMES in Hname.
  repeat (apply elem_of_cons in Hname as [->|Hname]);
    [| | | now apply elem_of_nil in Hname];
    apply contains_framed; vm_compute; reflexivity.
Qed.

Lemma tutor_placeholder_later (speaker_name : string) (history : list TutorOpenai.Entry) :
  speaker_name ∈ NAMES -> history <> [] ->
  contains PLACEHOLDER (TutorOpenai.user_prompt speaker_name history)
  = contains PLACEHOLDER (TutorOpenai.format_conversation history).
Proof.
  intros Hname Hne. rewrite tutor_user_prompt_later by exact Hne.
  replace (TutorOpenai.format_conversation history)
    with (join (nl +:+ nl)
            (map (fun entry => TutorOpenai.speaker entry +:+ ": " +:+ TutorOpenai.message entry)
                 history))
    by (destruct history; [congruence | reflexivity]).
  rewrite <- (string_app_assoc "You are "), <- (string_app_assoc ("You are " +:+ speaker_name)).
  unfold NAMES in Hname.
  repeat (apply elem_of_cons in Hname as [->|Hname]);
    [| | | now apply elem_of_nil in Hname];
    apply contains_framed; vm_compute; reflexivity.
Qed.

(** C9 (amended): for each of the three participants, the placeholder
    that [format_conversation] returns for an empty history is discarded:
    the opening user message does not contain it.  For a history that is
    not empty [format_conversation] returns the joined lines, and the user
    message contains the text of the placeholder exactly when these lines,
    that is what the participants said, contain it. *)
Theorem placeholder_only_from_history (speaker_name : string) :
  speaker_name ∈ NAMES ->
  (Main.format_conversation [] = PLACEHOLDER /\
   contains PLACEHOLDER (Main.user_prompt speaker_name []) = false /\
   forall history, history <> [] ->
     Main.format_conversation history
     = join (nl +:+ nl)
         (map (fun entry => Main.speaker entry +:+ ": " +:+ Main.message entry) history) /\
     contains PLACEHOLDER (Main.user_prompt speaker_name history)
     = contains PLACEHOLDER (Main.format_conversation history)) /\
  (TutorOpenai.format_conversation [] = PLACEHOLDER /\
   contains PLACEHOLDER (TutorOpenai.user_prompt speaker_name []) = false /\
   forall history, history <> [] ->
     TutorOpenai.format_conversation history
     = join (nl +:+ nl)
         (map (fun entry => TutorOpenai.speaker entry +:+ ": " +:+ TutorOpenai.message entry)
              history) /\
     contains PLACEHOLDER (TutorOpenai.user_prompt speaker_name history)
     = contains PLACEHOLDER (TutorOpenai.format_conversation history)).
Proof.
  intros Hname. split; (split; [reflexivity | split]).
  - unfold NAMES in Hname.
    repeat (apply elem_of_cons in Hname as [->|Hname]);
      [| | | now apply elem_of_nil in Hname]; vm_compute; reflexivity.
  - intros history Hne. split.
    + destruct history; [congruence | reflexivity].
    + now apply main_placeholder_later.
  - unfold NAMES in Hname.
    repeat (apply elem_of_cons in Hname as [->|Hname]);
      [| | | now apply elem_of_nil in Hname]; vm_compute; reflexivity.
  - intros history Hne. split.
    + destruct history; [congruence | reflexivity].
    + now apply tutor_placeholder_later.
Qed.

End Placeholder.

Lemma placeholder_only_from_history_witness :
  "Curious George" ∈ NAMES /\
  contains PLACEHOLDER (Main.user_prompt "Curious George" []) = false.
Proof.
  assert (H : "Curious George" ∈ NAMES).
  { apply elem_of_cons. right. apply elem_of_cons. now left. }
  split; [exact H|].
  exact (proj1 (proj2 (proj1 (placeholder_only_from_history "Curious George" H)))).
Defined.

(** C9, as stated, fails: a participant may have said the words of the
    placeholder, and then the next user message holds them. *)
Lemma placeholder_can_come_from_history :
  contains "No conversation yet."
    (Main.user_prompt "Curious George"
       [ {| Main.speaker := "Professor Maya"; Main.message := "No conversation yet." |} ])
  = true.
Proof. vm_compute. reflexivity. Qed.

(** ** The usage accountant *)

Section Accountant.
Import TutorOpenai.

Lemma pricing_nonneg (model : string) :
  (0 <= input (get PRICING model {| input := 0; output := 0 |}))%Q /\
  (0 <= output (get PRICING model {| input := 0; output := 0 |}))%Q.
Proof.
  unfold get. destruct (PRICING !! model) as [price|] eqn:E; simpl.
  - unfold PRICING in E.
    repeat (apply lookup_insert_Some in E as [[_ <-]|[_ E]]; [now split|]).
    apply lookup_singleton_Some in E as [_ <-]. now split.
  - split; apply Qle_refl.
Qed.

Lemma cost_nonneg (tracker : TokenTracker) (model : string) (i o : Z) :
  0 <= i -> 0 <= o -> (0 <= fst (add_interaction tracker model i o))%Q.
Proof.
  intros Hi Ho. destruct (pricing_nonneg model) as [Hin Hout]. simpl.
  assert (Hmillion : forall n, 0 <= n -> (0 <= inject_Z n / inject_Z 1000000)%Q).
  { intros n Hn. apply Qmult_le_0_compat.
    - change (inject_Z 0 <= inject_Z n)%Q. now rewrite <- Zle_Qle.
    - apply Qinv_le_0_compat. now unfold Qle. }
  apply (Qplus_le_compat 0 _ 0 _); apply Qmult_le_0_compat; auto.
Qed.

Lemma sum_costs_snoc (l : list Interaction) (r : Interaction) :
  sum_costs (l ++ [r]) = (sum_costs l + cost r)%Q.
Proof. unfold sum_costs. now rewrite foldl_snoc. Qed.

Lemma sum_tokens_snoc (f : Interaction -> Z) (l : list Interaction) (r : Interaction) :
  sum_tokens f (l ++ [r]) = sum_tokens f l + f r.
Proof.
  unfold sum_tokens. induction l as [|x l IH]; simpl; [lia | rewrite IH; lia].
Qed.

Lemma add_interaction_inv (t : TokenTracker) (model : string) (i o : Z) :
  tracker_inv t -> tracker_inv (snd (add_interaction t model i o)).
Proof.
  intros (Hi & Ho & Hc). unfold tracker_inv. cbn [add_interaction snd
    interactions total_input_tokens total_output_tokens total_cost].
  rewrite !sum_tokens_snoc, sum_costs_snoc, <- Hi, <- Ho, <- Hc. done.
Qed.

Lemma record_all_snoc (t : TokenTracker) (calls : list (string * Z * Z))
    (model : string) (i o : Z) :
  record_all t (calls ++ [(model, i, o)])
  = snd (add_interaction (record_all t calls) model i o).
Proof. unfold record_all. now rewrite foldl_snoc. Qed.

Lemma record_all_inv (calls : list (string * Z * Z)) :
  tracker_inv (record_all init calls).
Proof.
  induction calls as [|[[model i] o] calls IH] using rev_ind.
  - now split.
  - rewrite record_all_snoc. now apply add_interaction_inv.
Qed.


(** C10: the aggregates of a new tracker agree with its (empty) list of
    interactions; [add_interaction] keeps them in agreement, and, for token
    counts that are not negative, lowers none of the three aggregates nor
    the number of interactions; a call of [call_openai] whose
    chat-completion request raises leaves the tracker as it was. *)
Theorem tracker_aggregates (t : TokenTracker) (model : string)
    (input_tokens output_tokens : Z) :
  0 <= input_tokens -> 0 <= output_tokens -> tracker_inv t ->
  tracker_inv init /\
  (let t' := snd (add_interaction t model input_tokens output_tokens) in
   tracker_inv t' /\
   total_input_tokens t <= total_input_tokens t' /\
   total_output_tokens t <= total_output_tokens t' /\
   (total_cost t <= total_cost t')%Q /\
   (length (interactions t) <= length (interactions t'))%nat) /\
  (forall backend key messages config log e,
     (forall req, backend (length log) req = OpenAI.Raises e) ->
     snd (fst (call_openai backend key model messages config t log)) = t /\
     fst (fst (call_openai backend key model messages config t log))
     = "[Error calling " +:+ model +:+ ": " +:+ str e +:+ "]").
Proof.
  intros Hi Ho Hinv. split; [now split | split].
  - split; [now apply add_interaction_inv|].
    pose proof (cost_nonneg t model input_tokens output_tokens Hi Ho) as Hc.
    cbn [add_interaction fst snd interactions total_input_tokens
           total_output_tokens total_cost] in *.
    repeat split; try lia.
    + apply (Qle_trans _ (total_cost t + 0)).
      * rewrite Qplus_0_r. apply Qle_refl.
      * apply Qplus_le_compat; [apply Qle_refl | exact Hc].
    + rewrite length_app. lia.
  - intros backend key messages config log e Hfail.
    unfold call_openai, OpenAI.create. now rewrite Hfail.
Qed.

End Accountant.

(** Two calls to [gpt-4o], of 2,000,000 + 1,000,000 tokens and of
    400,000 + 100,000 tokens, cost 15 and 2, and 17 together; a call to a
    model without a price costs nothing. *)
Example two_calls_to_the_same_model :
  let first := TutorOpenai.add_interaction TutorOpenai.init "gpt-4o" 2000000 1000000 in
  let second := TutorOpenai.add_interaction (snd first) "gpt-4o" 400000 100000 in
  (fst first == 15)%Q /\ (fst second == 2)%Q /\
  (TutorOpenai.total_cost (snd second) == 17)%Q /\
  TutorOpenai.total_input_tokens (snd second) = 2400000 /\
  TutorOpenai.total_output_tokens (snd second) = 1100000.
Proof. vm_compute. repeat split. Qed.

Example unknown_model_costs_nothing :
  (fst (TutorOpenai.add_interaction TutorOpenai.init "llama3.2:latest" 1200 300) == 0)%Q.
Proof. vm_compute. reflexivity. Qed.


Lemma tracker_aggregates_witness :
  0 <= 120 /\ 0 <= 40 /\ tracker_inv TutorOpenai.init /\
  tracker_inv (snd (TutorOpenai.add_interaction TutorOpenai.init "o1-mini" 120 40)).
Proof.
  assert (H0 : tracker_inv TutorOpenai.init) by (split; [|split]; reflexivity).
  split; [lia|]. split; [lia|]. split; [exact H0|].
  exact (proj1 (proj1 (proj2 (tracker_aggregates TutorOpenai.init "o1-mini" 120 40
                                ltac:(lia) ltac:(lia) H0)))).
Defined.

(** ** The orchestrator of [main.py] *)

Section BatchLoop.
Import OpenAI.

Variable backend : Backend.

(** One call of [get_next_response]: one request with the two messages,
    and the reply made from its outcome. *)
Lemma main_get_next_response_spec (p : Main.Participant)
    (history : list Main.Entry) (log : list Request) :
  exists req,
    Main.get_next_response backend (Main.model p) (Main.prompt p) (Main.name p)
      history (Some (Main.config p)) log
    = (main_reply (Main.model p) (backend (length log) req), log ++ [req]) /\
    messages req
    = [ system_message (Main.prompt p);
        user_message (Main.user_prompt (Main.name p) history) ].
Proof.
  exists {| client := Main.client;
            model := Main.model p;
            messages :=
              [ system_message (Main.prompt p);
                user_message (Main.user_prompt (Main.name p) history) ];
            temperature := get (Main.config p) "temperature" (7 # 10)%Q;
            top_p := Some (get (Main.config p) "top_p" (9 # 10)%Q);
            max_tokens := get (Main.config p) "max_tokens" (150 # 1)%Q |}.
  split; [|reflexivity].
  unfold Main.get_next_response, Main.call_ollama, create, main_reply.
  cbn beta iota zeta. fold (system_message (Main.prompt p)).
  fold (user_message (Main.user_prompt (Main.name p) history)).
  destruct (backend _ _); reflexivity.
Qed.

Variable participants : list Main.Participant.
Variable max_turns : Z.
Hypothesis three : (3 <= length participants)%nat.

(** The loop, started at any turn with enough fuel, ends; it adds one entry
    and sends one request for each turn that was left, the [k]-th of them
    for the participant at index [(turn + k) mod 3]. *)
Lemma main_loop_spec (fuel : nat) :
  forall (turn : Z) (history : list Main.Entry) (log : list Request),
    0 <= turn ->
    (Z.to_nat (max_turns - turn) < fuel)%nat ->
    exists (added : list Main.Entry) (sent : list Request),
      Main.conversation_loop backend participants max_turns fuel turn history log
      = Done (history ++ added, log ++ sent) /\
      length added = Z.to_nat (max_turns - turn) /\
      length sent = Z.to_nat (max_turns - turn) /\
      forall k : nat, (k < Z.to_nat (max_turns - turn))%nat ->
        exists p req,
          participants !! Z.to_nat ((turn + Z.of_nat k) `mod` 3) = Some p /\
          sent !! k = Some req /\
          messages req
          = [ system_message (Main.prompt p);
              user_message (Main.user_prompt (Main.name p) (history ++ take k added)) ] /\
          added !! k
          = Some {| Main.speaker := Main.name p;
                    Main.message :=
                      main_reply (Main.model p) (backend (length log + k)%nat req) |}.
Proof.
  induction fuel as [|fuel IH]; intros turn history log Hturn Hfuel; [lia|].
  cbn [Main.conversation_loop]. case_bool_decide as Hlt.
  - destruct (participants !! Z.to_nat (turn `mod` 3)) as [p|] eqn:Hp.
    2:{ apply lookup_ge_None in Hp.
        pose proof (Z.mod_pos_bound turn 3 ltac:(lia)). lia. }
    destruct (main_get_next_response_spec p history log) as (req & -> & Hreq).
    set (entry := {| Main.speaker := Main.name p; Main.message := _ |}).
    destruct (IH (turn + 1) (history ++ [entry]) (log ++ [req]))
      as (added & sent & -> & Hadded & Hsent & Hturns); [lia | lia |].
    exists (entry :: added), (req :: sent).
    rewrite <- !(assoc_L (++)). cbn [app length].
    repeat split; [lia | lia |].
    intros [|k] Hk.
    + exists p, req. rewrite Z.add_0_r, take_0, (right_id_L [] (++)), Nat.add_0_r.
      repeat split; [exact Hp | exact Hreq].
    + destruct (Hturns k) as (p' & req' & Hp' & Hreq' & Hmsgs & Hentry); [lia|].
      exists p', req'. cbn [lookup list_lookup take].
      rewrite <- (assoc_L (++)) in Hmsgs. rewrite length_app in Hentry.
      cbn [length app] in Hentry, Hmsgs.
      replace (turn + Z.of_nat (S k)) with (turn + 1 + Z.of_nat k) by lia.
      replace (length log + S k)%nat with (length log + 1 + k)%nat by lia.
      repeat split; assumption.
  - exists [], []. rewrite !(right_id_L [] (++)).
    replace (Z.to_nat (max_turns - turn)) with 0%nat by lia.
    repeat split. intros k Hk. lia.
Qed.

End BatchLoop.

(** ** The orchestrator of [app.py] *)

Section StepwiseLoop.
Import OpenAI.

Variable backend : Backend.
Variable args : App.Inputs.

Lemma app_call_llm_spec (p : App.Participant) (user_prompt : string)
    (log : list Request) :
  exists req,
    App.call_llm backend (App.model p)
      [ system_message (App.prompt p); user_message user_prompt ]
      (App.config p) (App.source p) (App.ollama_url args) (App.api_key args) log
    = (app_reply (App.model p) (App.source p) (backend (length log) req),
       log ++ [req]) /\
    messages req = [ system_message (App.prompt p); user_message user_prompt ].
Proof.
  exists {| client :=
              if bool_decide (App.source p = "OpenAI API")
              then {| base_url := None; api_key := App.api_key args |}
              else {| base_url := Some (App.ollama_url args); api_key := "ollama" |};
            model := App.model p;
            messages := [ system_message (App.prompt p); user_message user_prompt ];
            temperature := get (App.config p) "temperature" (7 # 10)%Q;
            top_p := Some (get (App.config p) "top_p" (9 # 10)%Q);
            max_tokens := get (App.config p) "max_tokens" (150 # 1)%Q |}.
  split; [|reflexivity].
  unfold App.call_llm, create, app_reply. cbn beta iota zeta.
  destruct (backend _ _); reflexivity.
Qed.

Lemma app_next_unfinished (g : App.Frame) (log : list Request) :
  App.point g <> App.Finished ->
  App.next backend args g log
  = App.loop_from_test backend args (next_turn g) (App.messages g)
      (App.conversation_history_internal g) log.
Proof.
  unfold App.next, next_turn. destruct (App.point g); [reflexivity.. | congruence].
Qed.

Lemma app_participants_lookup (turn : Z) :
  exists p, App.participants args !! Z.to_nat (turn `mod` 3) = Some p.
Proof.
  apply lookup_lt_is_Some. cbn [App.participants length].
  pose proof (Z.mod_pos_bound turn 3 ltac:(lia)). lia.
Qed.

(** The generator, consumed from any suspended frame with enough fuel, is
    exhausted without raising; for each turn that was left it sent one
    request, added one entry to the internal history and one message to the
    chatbot list, and yielded that list. *)
Lemma app_consume_spec (fuel : nat) :
  forall (g : App.Frame) (shown : list (list Message)) (log : list Request),
    App.point g <> App.Finished ->
    0 <= next_turn g ->
    (Z.to_nat (App.max_turns args - next_turn g) < fuel)%nat ->
    exists (g' : App.Frame) (added : list (gmap string string))
           (chat : list Message) (yielded : list (list Message))
           (sent : list Request),
      App.consume backend args fuel g shown log
      = Done (g', shown ++ yielded, log ++ sent) /\
      App.conversation_history_internal g'
      = App.conversation_history_internal g ++ added /\
      App.messages g' = App.messages g ++ chat /\
      length added = Z.to_nat (App.max_turns args - next_turn g) /\
      length sent = Z.to_nat (App.max_turns args - next_turn g) /\
      length yielded = Z.to_nat (App.max_turns args - next_turn g) /\
      forall k : nat, (k < Z.to_nat (App.max_turns args - next_turn g))%nat ->
        exists p req,
          App.participants args !! Z.to_nat ((next_turn g + Z.of_nat k) `mod` 3)
          = Some p /\
          sent !! k = Some req /\
          messages req
          = [ system_message (App.prompt p);
              user_message
                (App.user_prompt (App.topic args) p
                   (App.conversation_history_internal g ++ take k added)) ] /\
          added !! k
          = Some {[ "name" := App.name p;
                    "content" :=
                      app_reply (App.model p) (App.source p)
                        (backend (length log + k)%nat req) ]} /\
          chat !! k
          = Some (chat_message p
                    (app_reply (App.model p) (App.source p)
                       (backend (length log + k)%nat req))) /\
          yielded !! k = Some (App.messages g ++ take (S k) chat).
Proof.
  induction fuel as [|fuel IH]; intros g shown log Hpoint Hturn Hfuel; [lia|].
  cbn [App.consume]. rewrite app_next_unfinished by exact Hpoint.
  unfold App.loop_from_test. case_bool_decide as Hlt.
  - destruct (app_participants_lookup (next_turn g)) as [p Hp]. rewrite Hp.
    destruct (app_call_llm_spec p
                (App.user_prompt (App.topic args) p (App.conversation_history_internal g))
                log) as (req & Hcall & Hreq).
    fold (system_message (App.prompt p)).
    fold (user_message (App.user_prompt (App.topic args) p
                          (App.conversation_history_internal g))).
    rewrite Hcall. cbn beta iota zeta.
    set (reply := app_reply _ _ _) in *.
    fold (chat_message p reply).
    set (g1 := {| App.point := App.AtYield |}).
    assert (Hnext : next_turn g1 = next_turn g + 1) by reflexivity.
    destruct (IH g1 (shown ++ [App.messages g ++ [chat_message p reply]]) (log ++ [req]))
      as (g' & added & chat & yielded & sent & -> & Hhist & Hchat & Hadded & Hsent
          & Hyielded & Hturns).
    { discriminate. }
    { rewrite Hnext. lia. }
    { rewrite Hnext. lia. }
    rewrite Hnext in *. cbn [g1 App.conversation_history_internal App.messages] in *.
    exists g', ({[ "name" := App.name p; "content" := reply ]} :: added),
      (chat_message p reply :: chat),
      ((App.messages g ++ [chat_message p reply]) :: yielded), (req :: sent).
    rewrite <- !(assoc_L (++)) in *. cbn [app length] in *.
    repeat split; [assumption | assumption | lia | lia | lia |].
    intros [|k] Hk.
    + exists p, req.
      rewrite Z.add_0_r, take_0, (right_id_L [] (++)), Nat.add_0_r.
      repeat split; [exact Hp | exact Hreq].
    + destruct (Hturns k) as (p' & req' & Hp' & Hreq' & Hmsgs & Hentry & Hshown & Hy);
        [lia|].
      exists p', req'. cbn [lookup list_lookup take].
      rewrite length_app in Hentry, Hshown. cbn [length] in Hentry, Hshown.
      rewrite <- (assoc_L (++)) in Hmsgs. rewrite <- (assoc_L (++)) in Hy.
      cbn [app] in Hmsgs, Hy.
      replace (next_turn g + Z.of_nat (S k)) with (next_turn g + 1 + Z.of_nat k) by lia.
      replace (length log + S k)%nat with (length log + 1 + k)%nat by lia.
      repeat split; assumption.
  - exists {| App.point := App.Finished; App.turn := next_turn g;
              App.messages := App.messages g;
              App.conversation_history_internal := App.conversation_history_internal g |},
      [], [], [], [].
    cbn [App.conversation_history_internal App.messages].
    rewrite !(right_id_L [] (++)).
    replace (Z.to_nat (App.max_turns args - next_turn g)) with 0%nat by lia.
    repeat split. intros k Hk. lia.
Qed.

End StepwiseLoop.

(** ** Complete runs *)

Section Runs.
Import OpenAI.

Variable backend : Backend.

(** A run of the loop of [main.py] from turn 0. *)
Lemma main_run_spec (participants : list Main.Participant) (max_turns : Z)
    (fuel : nat) :
  (3 <= length participants)%nat ->
  0 <= max_turns ->
  (Z.to_nat max_turns < fuel)%nat ->
  exists (history : list Main.Entry) (log : list Request),
    Main.conversation_loop backend participants max_turns fuel 0 [] []
    = Done (history, log) /\
    Z.of_nat (length history) = max_turns /\
    Z.of_nat (length log) = max_turns /\
    forall i : Z, 0 <= i < max_turns ->
      exists p req,
        participants !! Z.to_nat (i `mod` 3) = Some p /\
        log !! Z.to_nat i = Some req /\
        messages req
        = [ system_message (Main.prompt p);
            user_message (Main.user_prompt (Main.name p) (take (Z.to_nat i) history)) ] /\
        history !! Z.to_nat i
        = Some {| Main.speaker := Main.name p;
                  Main.message := main_reply (Main.model p) (backend (Z.to_nat i) req) |}.
Proof.
  intros Hthree Hmax Hfuel.
  destruct (main_loop_spec backend participants max_turns Hthree fuel 0 [] [])
    as (history & log & Hrun & Hhistory & Hlog & Hturns);
    [lia | rewrite Z.sub_0_r; exact Hfuel |].
  rewrite Z.sub_0_r in *. exists history, log.
  repeat split; [exact Hrun | lia | lia |].
  intros i Hi. destruct (Hturns (Z.to_nat i)) as (p & req & Hp & Hreq & Hmsgs & Hentry);
    [lia|].
  rewrite Z.add_0_l, Z2Nat.id in Hp by lia. exists p, req.
  repeat split; assumption.
Qed.

(** A generator of [app.py] consumed from its creation. *)
Lemma app_run_spec (args : App.Inputs) (fuel : nat) :
  0 <= App.max_turns args ->
  (Z.to_nat (App.max_turns args) < fuel)%nat ->
  exists (g : App.Frame) (yielded : list (list Message)) (log : list Request),
    App.consume backend args fuel App.run_conversation_step [] []
    = Done (g, yielded, log) /\
    Z.of_nat (length (App.conversation_history_internal g)) = App.max_turns args /\
    Z.of_nat (length log) = App.max_turns args /\
    Z.of_nat (length yielded) = App.max_turns args /\
    forall i : Z, 0 <= i < App.max_turns args ->
      exists p req,
        App.participants args !! Z.to_nat (i `mod` 3) = Some p /\
        log !! Z.to_nat i = Some req /\
        messages req
        = [ system_message (App.prompt p);
            user_message
              (App.user_prompt (App.topic args) p
                 (take (Z.to_nat i) (App.conversation_history_internal g))) ] /\
        App.conversation_history_internal g !! Z.to_nat i
        = Some {[ "name" := App.name p;
                  "content" :=
                    app_reply (App.model p) (App.source p) (backend (Z.to_nat i) req) ]} /\
        yielded !! Z.to_nat i = Some (take (S (Z.to_nat i)) (App.messages g)) /\
        App.messages g !! Z.to_nat i
        = Some (chat_message p
                  (app_reply (App.model p) (App.source p) (backend (Z.to_nat i) req))).
Proof.
  intros Hmax Hfuel.
  destruct (app_consume_spec backend args fuel App.run_conversation_step [] [])
    as (g & added & chat & yielded & sent & Hrun & Hhist & Hchat & Hadded & Hsent
        & Hyielded & Hturns);
    [discriminate | reflexivity
     | change (next_turn App.run_conversation_step) with 0;
       rewrite Z.sub_0_r; exact Hfuel |].
  change (next_turn App.run_conversation_step) with 0 in *.
  rewrite Z.sub_0_r in *.
  cbn [App.run_conversation_step App.conversation_history_internal App.messages app]
    in *.
  exists g, yielded, sent. rewrite Hhist, Hchat.
  repeat split; [exact Hrun | lia | lia | lia |].
  intros i Hi.
  destruct (Hturns (Z.to_nat i)) as (p & req & Hp & Hreq & Hmsgs & Hentry & Hshown & Hy);
    [lia|].
  rewrite Z.add_0_l, Z2Nat.id in Hp by lia. exists p, req.
  repeat split; assumption.
Qed.

End Runs.

(** *** Rotation of the speakers *)




(** With a single participant the second turn looks up index 1 and the run
    ends on the [IndexError]. *)
Lemma single_participant_run_raises :
  Main.conversation_loop echo_backend one_participant 2 3 0 [] [] = Raised IndexError.
Proof. vm_compute. reflexivity. Qed.

(** *** A failed call *)

(** C3: when the call of turn [k] fails, the entry appended for that turn
    holds the error sentinel, which contains [[Error calling ]; the run goes
    on to the end, with exactly [max_turns] entries, and the rotation of the
    speakers is the same as without a failure. *)
Theorem failed_call_is_an_entry (backend : OpenAI.Backend)
    (participants : list Main.Participant) (max_turns : Z) (fuel : nat)
    (k : Z) (e : exn) :
  length participants = 3%nat ->
  0 <= k < max_turns ->
  (Z.to_nat max_turns < fuel)%nat ->
  (forall req, backend (Z.to_nat k) req = OpenAI.Raises e) ->
  exists history log,
    Main.conversation_loop backend participants max_turns fuel 0 [] []
    = Done (history, log) /\
    Z.of_nat (length history) = max_turns /\
    (exists p entry,
       participants !! Z.to_nat (k `mod` 3) = Some p /\
       history !! Z.to_nat k = Some entry /\
       Main.message entry
       = "[Error calling " +:+ Main.model p +:+ ": " +:+ str e +:+ "]" /\
       contains "[Error calling " (Main.message entry) = true) /\
    forall i : Z, 0 <= i < max_turns ->
      exists p entry,
        participants !! Z.to_nat (i `mod` 3) = Some p /\
        history !! Z.to_nat i = Some entry /\
        Main.speaker entry = Main.name p.
Proof.
  intros Hthree Hk Hfuel Hfail.
  destruct (main_run_spec backend participants max_turns fuel)
    as (history & log & Hrun & Hlen & _ & Hturns); [lia | lia | lia |].
  exists history, log. split; [exact Hrun|]. split; [exact Hlen|]. split.
  - destruct (Hturns k Hk) as (p & req & Hp & _ & _ & Hentry).
    rewrite Hfail in Hentry. exists p. eexists.
    split; [exact Hp|]. split; [exact Hentry|]. split; [reflexivity|].
    apply contains_startswith, startswith_app.
  - intros i Hi. destruct (Hturns i Hi) as (p & req & Hp & _ & _ & Hentry). eauto.
Qed.

Lemma failed_call_is_an_entry_witness :
  length Main.participants = 3%nat /\
  0 <= 1 < 6 /\
  (Z.to_nat 6 < 7)%nat /\
  (forall req, flaky_backend (Z.to_nat 1) req = OpenAI.Raises connection_error) /\
  exists history log,
    Main.conversation_loop flaky_backend Main.participants 6 7 0 [] []
    = Done (history, log) /\
    Z.of_nat (length history) = 6.
Proof.
  repeat split; try reflexivity; try lia.
  destruct (failed_call_is_an_entry flaky_backend Main.participants 6 7 1
              connection_error eq_refl ltac:(lia) ltac:(lia) (fun _ => eq_refl))
    as (history & log & Hrun & Hlen & _).
  exists history, log. split; [exact Hrun | exact Hlen].
Defined.

(** *** The payload of a call *)



(** ** Batch mode and incremental mode *)

Section Modes.
Import OpenAI.

Lemma entry_name (name content : string) :
  get ({[ "name" := name; "content" := content ]} : gmap string string)
    "name" "Unknown" = name.
Proof. unfold get. now rewrite lookup_insert_eq. Qed.

Lemma entry_content (name content : string) :
  get ({[ "name" := name; "content" := content ]} : gmap string string)
    "content" EmptyString = content.
Proof.
  unfold get. rewrite lookup_insert_ne by discriminate.
  now rewrite lookup_singleton_eq.
Qed.

(** Histories with the same pairs are rendered alike. *)
Lemma format_agree (hm : list Main.Entry) (ha : list (gmap string string)) :
  main_pairs hm = app_pairs ha ->
  Main.format_conversation hm = App.format_conversation_for_prompt ha.
Proof.
  intros Hpairs.
  assert (Hlines :
    map (fun entry => Main.speaker entry +:+ ": " +:+ Main.message entry) hm
    = map (fun entry => get entry "name" "Unknown" +:+ ": "
                        +:+ get entry "content" EmptyString) ha).
  { apply (f_equal (map (fun sc : string * string => sc.1 +:+ ": " +:+ sc.2))) in Hpairs.
    unfold main_pairs, app_pairs in Hpairs. now rewrite !map_map in Hpairs. }
  destruct hm, ha; try discriminate Hpairs; [reflexivity|].
  unfold Main.format_conversation, App.format_conversation_for_prompt.
  now rewrite Hlines.
Qed.

Lemma user_prompt_agree (pm : Main.Participant) (pa : App.Participant)
    (topic : string) (hm : list Main.Entry) (ha : list (gmap string string)) :
  Main.name pm = App.name pa ->
  topic = Main.INITIAL_TOPIC ->
  main_pairs hm = app_pairs ha ->
  Main.user_prompt (Main.name pm) hm = App.user_prompt topic pa ha.
Proof.
  intros Hname -> Hpairs. unfold Main.user_prompt, App.user_prompt.
  rewrite (format_agree hm ha Hpairs), Hname.
  destruct hm, ha; try discriminate Hpairs; reflexivity.
Qed.

Variable backend : Backend.
Variable participants : list Main.Participant.
Variable args : App.Inputs.

Hypothesis answers : forall n req, exists response, backend n req = Returns response.
Hypothesis same : Forall2 same_participant participants (App.participants args).
Hypothesis same_topic : App.topic args = Main.INITIAL_TOPIC.
Hypothesis same_url : App.ollama_url args = "http://localhost:11434/v1".

(** For the same participant and the same history the two programs send
    the same request and get the same text. *)
Lemma step_agree (pm : Main.Participant) (pa : App.Participant)
    (hm : list Main.Entry) (ha : list (gmap string string)) (log : list Request) :
  same_participant pm pa ->
  main_pairs hm = app_pairs ha ->
  Main.get_next_response backend (Main.model pm) (Main.prompt pm) (Main.name pm)
    hm (Some (Main.config pm)) log
  = App.call_llm backend (App.model pa)
      [ {| role := "system"; content := App.prompt pa |};
        {| role := "user"; content := App.user_prompt (App.topic args) pa ha |} ]
      (App.config pa) (App.source pa) (App.ollama_url args) (App.api_key args) log.
Proof.
  intros (Hname & Hmodel & Hprompt & Htemp & Htop & Hmax & Hsource) Hpairs.
  unfold Main.get_next_response, Main.call_ollama, App.call_llm, create.
  rewrite (user_prompt_agree pm pa (App.topic args) hm ha Hname same_topic Hpairs).
  rewrite Hmodel, Hprompt, Htemp, Htop, Hmax, same_url.
  rewrite bool_decide_eq_false_2 by exact Hsource.
  fold Main.client. cbn beta iota zeta.
  match goal with |- context [backend ?n ?req] =>
    destruct (answers n req) as [response ->] end.
  reflexivity.
Qed.

(** The two loops, run in step from corresponding states, stay in step. *)
Lemma loops_agree (fuel : nat) :
  forall (g : App.Frame) (hm : list Main.Entry) (shown : list (list Message))
         (log : list Request),
    App.point g <> App.Finished ->
    main_pairs hm = app_pairs (App.conversation_history_internal g) ->
    match Main.conversation_loop backend participants (App.max_turns args) fuel
            (next_turn g) hm log,
          App.consume backend args fuel g shown log with
    | Done (hm', logm), Done (g', _, loga) =>
      main_pairs hm' = app_pairs (App.conversation_history_internal g') /\
      logm = loga
    | OutOfFuel, OutOfFuel => True
    | _, _ => False
    end.
Proof.
  induction fuel as [|fuel IH]; intros g hm shown log Hpoint Hpairs; [exact I|].
  cbn [Main.conversation_loop App.consume].
  rewrite app_next_unfinished by exact Hpoint.
  unfold App.loop_from_test. case_bool_decide as Hlt.
  - destruct (app_participants_lookup args (next_turn g)) as [pa Hpa].
    destruct (Forall2_lookup_r _ _ _ _ _ same Hpa) as (pm & Hpm & Hsame).
    rewrite Hpa, Hpm, (step_agree pm pa hm _ log Hsame Hpairs).
    destruct (App.call_llm _ _ _ _ _ _ _ _) as [response_text log'].
    set (g1 := {| App.point := App.AtYield |}).
    change (next_turn g + 1) with (next_turn g1).
    apply IH; [discriminate|].
    cbn [g1 App.conversation_history_internal].
    unfold main_pairs, app_pairs in *. rewrite !map_app, Hpairs.
    cbn [map Main.speaker Main.message].
    rewrite entry_name, entry_content.
    destruct Hsame as (-> & _). reflexivity.
  - split; [exact Hpairs | reflexivity].
Qed.

(** C4 (amended): with the same three participants, the same topic, the
    same limit of turns and the same endpoint, whenever every request is
    answered (none raises), the batch loop of [main.py] and the generator of
    [app.py], consumed to its end, produce the same sequence of
    (speaker, content) pairs, of [max_turns] pairs. *)
Theorem batch_and_stepwise_agree (fuel : nat) :
  (Z.to_nat (App.max_turns args) < fuel)%nat ->
  exists transcript,
    batch_transcript backend participants (App.max_turns args) fuel = Some transcript /\
    incremental_transcript backend args fuel = Some transcript /\
    length transcript = Z.to_nat (App.max_turns args).
Proof.
  intros Hfuel.
  assert (Hthree : (3 <= length participants)%nat).
  { rewrite (Forall2_length _ _ _ same). reflexivity. }
  destruct (main_loop_spec backend participants (App.max_turns args) Hthree
              fuel 0 [] []) as (history & log & Hrun & Hlen & _);
    [lia | rewrite Z.sub_0_r; exact Hfuel |].
  pose proof (loops_agree fuel App.run_conversation_step [] [] []) as Hagree.
  change (next_turn App.run_conversation_step) with 0 in Hagree.
  unfold batch_transcript, incremental_transcript.
  rewrite Hrun in *. cbn [app] in *.
  destruct (App.consume _ _ _ _ _ _) as [[[g' yielded] loga]| |];
    try (exfalso; apply Hagree; [discriminate | reflexivity]).
  destruct Hagree as [Hpairs _]; [discriminate | reflexivity |].
  exists (main_pairs history). rewrite Hpairs. repeat split.
  rewrite <- Hpairs. unfold main_pairs. rewrite length_map, Hlen. f_equal. lia.
Qed.

End Modes.

Lemma batch_and_stepwise_agree_witness :
  (forall n req, exists response, echo_backend n req = OpenAI.Returns response) /\
  Forall2 same_participant Main.participants (App.participants App.default_inputs) /\
  App.topic App.default_inputs = Main.INITIAL_TOPIC /\
  App.ollama_url App.default_inputs = "http://localhost:11434/v1" /\
  (Z.to_nat (App.max_turns App.default_inputs) < 21)%nat /\
  exists transcript,
    batch_transcript echo_backend Main.participants Main.MAX_TURNS 21 = Some transcript /\
    incremental_transcript echo_backend App.default_inputs 21 = Some transcript.
Proof.
  assert (Hanswers : forall n req,
             exists response, echo_backend n req = OpenAI.Returns response).
  { intros n req. eexists. reflexivity. }
  assert (Hsame : Forall2 same_participant Main.participants
                    (App.participants App.default_inputs)).
  { repeat (constructor;
            [repeat split; try (vm_compute; reflexivity); discriminate|]).
    constructor. }
  assert (Hfuel : (Z.to_nat (App.max_turns App.default_inputs) < 21)%nat)
    by (vm_compute; lia).
  repeat split; try assumption.
  destruct (batch_and_stepwise_agree echo_backend Main.participants App.default_inputs
              Hanswers Hsame eq_refl eq_refl 21%nat Hfuel)
    as (transcript & Hbatch & Hsteps & _).
  exists transcript. split; [exact Hbatch | exact Hsteps].
Defined.

(** C4, as stated, fails when a request raises: for the same failure the
    two programs write different sentinel texts.  With the default
    participants, one turn and an endpoint that refuses the connection: *)
Lemma sentinel_differs_between_modes :
  batch_transcript failing_backend Main.participants 1 2
  = Some [ ("Professor Maya", "[Error calling llama3.2:latest: Connection error.]") ] /\
  incremental_transcript failing_backend (with_max_turns App.default_inputs 1) 2
  = Some [ ("Professor Maya",
            "[Error calling llama3.2:latest via Ollama: Connection error.]") ].
Proof. split; vm_compute; reflexivity. Qed.


(** * Further properties of the programs *)

(** ** The orchestrator of [tutor_openai.py] *)

Section MeteredLoop.
Import OpenAI.

Variable backend : Backend.
Variable key : string.

Lemma tutor_get_next_response_spec (p : TutorOpenai.Participant)
    (history : list TutorOpenai.Entry) (tracker : TutorOpenai.TokenTracker)
    (log : list Request) :
  exists req,
    TutorOpenai.get_next_response backend key (TutorOpenai.participant_model p)
      (TutorOpenai.prompt p) (TutorOpenai.name p) history (TutorOpenai.config p)
      tracker log
    = (main_reply (TutorOpenai.participant_model p) (backend (length log) req),
       track (TutorOpenai.participant_model p) (backend (length log) req) tracker,
       log ++ [req]) /\
    messages req
    = [ system_message (TutorOpenai.prompt p);
        user_message (TutorOpenai.user_prompt (TutorOpenai.name p) history) ] /\
    model req = TutorOpenai.participant_model p /\
    client req = TutorOpenai.client key /\
    top_p req = None.
Proof.
  exists {| client := TutorOpenai.client key;
            model := TutorOpenai.participant_model p;
            messages :=
              [ system_message (TutorOpenai.prompt p);
                user_message (TutorOpenai.user_prompt (TutorOpenai.name p) history) ];
            temperature := get (TutorOpenai.config p) "temperature" (7 # 10)%Q;
            top_p := None;
            max_tokens := get (TutorOpenai.config p) "max_tokens" (150 # 1)%Q |}.
  split; [|repeat split].
  unfold TutorOpenai.get_next_response, TutorOpenai.call_openai, create, main_reply, track.
  cbn beta iota zeta. fold (system_message (TutorOpenai.prompt p)).
  fold (user_message (TutorOpenai.user_prompt (TutorOpenai.name p) history)).
  destruct (backend _ _); reflexivity.
Qed.

Variable participants : list TutorOpenai.Participant.
Variable max_turns : Z.
Hypothesis three : (3 <= length participants)%nat.

Lemma tutor_loop_spec (fuel : nat) :
  forall (turn : Z) (history : list TutorOpenai.Entry)
         (tracker : TutorOpenai.TokenTracker) (log : list Request),
    0 <= turn ->
    (Z.to_nat (max_turns - turn) < fuel)%nat ->
    exists (added : list TutorOpenai.Entry) (sent : list Request),
      TutorOpenai.conversation_loop backend key participants max_turns fuel turn
        history tracker log
      = Done (history ++ added,
              foldl (fun t step => track step.1 step.2 t) tracker
                (outcomes_from backend (length log) sent),
              log ++ sent) /\
      length added = Z.to_nat (max_turns - turn) /\
      length sent = Z.to_nat (max_turns - turn) /\
      forall k : nat, (k < Z.to_nat (max_turns - turn))%nat ->
        exists p req,
          participants !! Z.to_nat ((turn + Z.of_nat k) `mod` 3) = Some p /\
          sent !! k = Some req /\
          messages req
          = [ system_message (TutorOpenai.prompt p);
              user_message
                (TutorOpenai.user_prompt (TutorOpenai.name p) (history ++ take k added)) ] /\
          client req = TutorOpenai.client key /\
          top_p req = None /\
          added !! k
          = Some {| TutorOpenai.speaker := TutorOpenai.name p;
                    TutorOpenai.message :=
                      main_reply (TutorOpenai.participant_model p)
                        (backend (length log + k)%nat req) |}.
Proof.
  induction fuel as [|fuel IH]; intros turn history tracker log Hturn Hfuel; [lia|].
  cbn [TutorOpenai.conversation_loop]. case_bool_decide as Hlt.
  - destruct (participants !! Z.to_nat (turn `mod` 3)) as [p|] eqn:Hp.
    2:{ apply lookup_ge_None in Hp.
        pose proof (Z.mod_pos_bound turn 3 ltac:(lia)). lia. }
    destruct (tutor_get_next_response_spec p history tracker log)
      as (req & -> & Hreq & Hmodel & Hclient & Htop).
    set (entry := {| TutorOpenai.speaker := TutorOpenai.name p;
                     TutorOpenai.message := _ |}).
    destruct (IH (turn + 1) (history ++ [entry])
                (track (TutorOpenai.participant_model p) (backend (length log) req) tracker)
                (log ++ [req]))
      as (added & sent & -> & Hadded & Hsent & Hturns); [lia | lia |].
    exists (entry :: added), (req :: sent).
    rewrite <- !(assoc_L (++)). cbn [app length].
    split; [|split; [lia | split; [lia|]]].
    + do 2 f_equal. unfold outcomes_from. cbn [imap foldl fst snd].
      rewrite Hmodel, Nat.add_0_r. apply (f_equal (pair _)).
      apply (f_equal (foldl (fun t (step : string * Outcome) => track step.1 step.2 t) _)).
      apply imap_ext. intros k r _. cbn. rewrite length_app. cbn [length].
      do 2 f_equal. lia.
    + intros [|k] Hk.
      * exists p, req. rewrite Z.add_0_r, take_0, (right_id_L [] (++)), Nat.add_0_r.
        repeat split; assumption.
      * destruct (Hturns k) as (p' & req' & Hp' & Hreq' & Hmsgs & Hc & Ht & Hentry); [lia|].
        exists p', req'. cbn [lookup list_lookup take].
        rewrite <- (assoc_L (++)) in Hmsgs. rewrite length_app in Hentry.
        cbn [length app] in Hentry, Hmsgs.
        replace (turn + Z.of_nat (S k)) with (turn + 1 + Z.of_nat k) by lia.
        replace (length log + S k)%nat with (length log + 1 + k)%nat by lia.
        repeat split; assumption.
  - exists [], []. rewrite !(right_id_L [] (++)).
    replace (Z.to_nat (max_turns - turn)) with 0%nat by lia.
    repeat split. intros k Hk. lia.
Qed.

(** The tracker plays no part in the conversation. *)
Lemma tutor_loop_forgets_tracker (fuel : nat) :
  forall (turn : Z) (history : list TutorOpenai.Entry)
         (t1 t2 : TutorOpenai.TokenTracker) (log : list Request),
    forget_tracker
      (TutorOpenai.conversation_loop backend key participants max_turns fuel turn
         history t1 log)
    = forget_tracker
        (TutorOpenai.conversation_loop backend key participants max_turns fuel turn
           history t2 log).
Proof.
  induction fuel as [|fuel IH]; intros turn history t1 t2 log; [reflexivity|].
  cbn [TutorOpenai.conversation_loop]. case_bool_decide; [|reflexivity].
  destruct (participants !! _) as [p|]; [|reflexivity].
  unfold TutorOpenai.get_next_response, TutorOpenai.call_openai, create.
  cbn beta iota zeta. destruct (backend _ _); cbn; apply IH.
Qed.

End MeteredLoop.

(** X3: the tracker is bookkeeping only: started with any two trackers, the
    loop of [tutor_openai.py] ends the same way, with the same history and
    the same requests. *)
Theorem tracker_does_not_steer_the_conversation (backend : OpenAI.Backend)
    (key : string) (participants : list TutorOpenai.Participant) (max_turns : Z)
    (fuel : nat) (turn : Z) (history : list TutorOpenai.Entry)
    (t1 t2 : TutorOpenai.TokenTracker) (log : list OpenAI.Request) :
  forget_tracker
    (TutorOpenai.conversation_loop backend key participants max_turns fuel turn
       history t1 log)
  = forget_tracker
      (TutorOpenai.conversation_loop backend key participants max_turns fuel turn
         history t2 log).
Proof. apply tutor_loop_forgets_tracker. Qed.

Section MeteredRuns.
Import OpenAI.

Variable backend : Backend.
Variable key : string.

(** X1: with three participants and [max_turns >= 0], the loop of
    [tutor_openai.py] ends with exactly [max_turns] entries and [max_turns]
    requests; entry [i] is spoken by [participants[i mod 3]] and holds the
    reply to request [i] (the text of the completion, or the error sentinel);
    request [i] goes to the hosted service with the key of the environment,
    without [top_p], and carries the system prompt of the speaker and the
    user prompt made from the first [i] entries. *)
Theorem tutor_run_rotation (participants : list TutorOpenai.Participant)
    (max_turns : Z) (fuel : nat) :
  length participants = 3%nat ->
  0 <= max_turns ->
  (Z.to_nat max_turns < fuel)%nat ->
  exists history tracker log,
    TutorOpenai.conversation_loop backend key participants max_turns fuel 0 []
      TutorOpenai.init []
    = Done (history, tracker, log) /\
    Z.of_nat (length history) = max_turns /\
    Z.of_nat (length log) = max_turns /\
    forall i : Z, 0 <= i < max_turns ->
      exists p req,
        participants !! Z.to_nat (i `mod` 3) = Some p /\
        log !! Z.to_nat i = Some req /\
        messages req
        = [ {| role := "system"; content := TutorOpenai.prompt p |};
            {| role := "user";
               content :=
                 TutorOpenai.user_prompt (TutorOpenai.name p)
                   (take (Z.to_nat i) history) |} ] /\
        client req = {| base_url := None; api_key := key |} /\
        top_p req = None /\
        history !! Z.to_nat i
        = Some {| TutorOpenai.speaker := TutorOpenai.name p;
                  TutorOpenai.message :=
                    match backend (Z.to_nat i) req with
                    | Returns response => choices_0_message_content response
                    | Raises e =>
                      "[Error calling " +:+ TutorOpenai.participant_model p +:+ ": "
                      +:+ str e +:+ "]"
                    end |}.
Proof.
  intros Hthree Hmax Hfuel.
  destruct (tutor_loop_spec backend key participants max_turns ltac:(lia) fuel 0 []
              TutorOpenai.init [])
    as (history & log & Hrun & Hhistory & Hlog & Hturns);
    [lia | rewrite Z.sub_0_r; exact Hfuel |].
  rewrite Z.sub_0_r in *. eexists history, _, log.
  split; [exact Hrun|]. split; [lia|]. split; [lia|].
  intros i Hi.
  destruct (Hturns (Z.to_nat i)) as (p & req & Hp & Hreq & Hmsgs & Hc & Ht & Hentry);
    [lia|].
  rewrite Z.add_0_l, Z2Nat.id in Hp by lia. exists p, req.
  repeat split; assumption.
Qed.

Lemma foldl_track_record_all (steps : list (string * Outcome))
    (t : TutorOpenai.TokenTracker) :
  foldl (fun t step => track step.1 step.2 t) t steps
  = record_all t (answered steps).
Proof.
  revert t. induction steps as [|[m o] steps IH]; intros t; [reflexivity|].
  cbn [foldl]. rewrite IH. unfold answered. cbn [omap fst snd].
  destruct o; reflexivity.
Qed.

Lemma answered_length (steps : list (string * Outcome)) :
  (length (answered steps) <= length steps)%nat.
Proof.
  unfold answered. induction steps as [|[m o] steps IH]; [reflexivity|].
  destruct o; simpl.
  - apply (proj1 (Nat.succ_le_mono _ _)), IH.
  - apply le_S, IH.
Qed.

Lemma record_all_interactions (calls : list (string * Z * Z))
    (t : TutorOpenai.TokenTracker) :
  TutorOpenai.interactions (record_all t calls)
  = TutorOpenai.interactions t ++ map interaction_of calls.
Proof.
  revert t. induction calls as [|[[m i] o] calls IH]; intros t.
  - cbn. now rewrite (right_id_L [] (++)).
  - unfold record_all in *. cbn [foldl]. rewrite IH.
    cbn [TutorOpenai.add_interaction snd TutorOpenai.interactions map].
    now rewrite <- (assoc_L (++)).
Qed.

(** X2: after a run of the loop of [tutor_openai.py] the tracker is the one
    obtained by recording, in order, the usage of every request that was
    answered; a request that raised is not recorded.  So the tracker holds at
    most [max_turns] interactions, and its aggregates agree with them. *)
Theorem tutor_run_tracker (participants : list TutorOpenai.Participant)
    (max_turns : Z) (fuel : nat) :
  length participants = 3%nat ->
  0 <= max_turns ->
  (Z.to_nat max_turns < fuel)%nat ->
  exists history tracker log,
    TutorOpenai.conversation_loop backend key participants max_turns fuel 0 []
      TutorOpenai.init []
    = Done (history, tracker, log) /\
    tracker = record_all TutorOpenai.init (answered (outcomes_from backend 0 log)) /\
    TutorOpenai.interactions tracker
    = map interaction_of (answered (outcomes_from backend 0 log)) /\
    Z.of_nat (length (TutorOpenai.interactions tracker)) <= max_turns /\
    tracker_inv tracker.
Proof.
  intros Hthree Hmax Hfuel.
  destruct (tutor_loop_spec backend key participants max_turns ltac:(lia) fuel 0 []
              TutorOpenai.init [])
    as (history & log & Hrun & Hhistory & Hlog & _);
    [lia | rewrite Z.sub_0_r; exact Hfuel |].
  rewrite Z.sub_0_r in *. cbn [app length] in Hrun.
  eexists history, _, log. split; [exact Hrun|].
  rewrite foldl_track_record_all. split; [reflexivity|].
  rewrite record_all_interactions. cbn [TutorOpenai.init TutorOpenai.interactions app].
  split; [reflexivity|]. split; [|apply record_all_inv].
  rewrite length_map. pose proof (answered_length (outcomes_from backend 0 log)) as Hle.
  assert (Hsteps : length (outcomes_from backend 0 log) = length log)
    by apply length_imap.
  lia.
Qed.

(** X14: [main] of [tutor_openai.py] starts no conversation, and so sends
    no request, when the key is not set, empty, or the placeholder of the
    template; with any other key it runs the six turns, and every request
    goes to the hosted service with that key. *)
Theorem tutor_main_needs_a_key (OPENAI_API_KEY : option string) (fuel : nat) :
  (Z.to_nat TutorOpenai.MAX_TURNS < fuel)%nat ->
  (OPENAI_API_KEY = None \/ OPENAI_API_KEY = Some EmptyString
   \/ OPENAI_API_KEY = Some "sk-your-key-here" ->
   TutorOpenai.main backend OPENAI_API_KEY fuel = None) /\
  (forall api_key,
     OPENAI_API_KEY = Some api_key ->
     api_key <> EmptyString -> api_key <> "sk-your-key-here" ->
     exists history tracker log,
       TutorOpenai.main backend OPENAI_API_KEY fuel = Some (Done (history, tracker, log)) /\
       length log = 6%nat /\
       forall req, req ∈ log ->
         client req = {| base_url := None; OpenAI.api_key := api_key |}).
Proof.
  intros Hfuel. split.
  - intros [-> | [-> | ->]]; reflexivity.
  - intros api_key -> Hempty Hplaceholder. unfold TutorOpenai.main.
    rewrite !bool_decide_eq_false_2 by assumption. cbn [orb].
    unfold TutorOpenai.run_conversation.
    destruct (tutor_loop_spec backend api_key TutorOpenai.participants
                TutorOpenai.MAX_TURNS ltac:(cbn; lia) fuel 0 [] TutorOpenai.init [])
      as (history & log & Hrun & _ & Hlog & Hturns);
      [lia | rewrite Z.sub_0_r; exact Hfuel |].
    rewrite Z.sub_0_r in *. cbn [app] in Hrun. rewrite Hrun.
    eexists history, _, log. split; [reflexivity|]. split; [exact Hlog|].
    intros req [k Hk]%list_elem_of_lookup.
    destruct (Hturns k) as (p & req' & _ & Hreq' & _ & Hc & _).
    { apply lookup_lt_Some in Hk. lia. }
    rewrite Hk in Hreq'. injection Hreq' as <-. exact Hc.
Qed.

End MeteredRuns.

(** X13: what was recorded can be read back: after any sequence of
    recordings the tracker holds the interactions it had, unchanged, followed
    by one interaction per recording, in order, with the model and the token
    counts of the recording; and the token totals have grown by the sums of
    the recorded counts. *)
Theorem recordings_read_back (t : TutorOpenai.TokenTracker)
    (calls : list (string * Z * Z)) :
  TutorOpenai.interactions (record_all t calls)
  = TutorOpenai.interactions t ++ map interaction_of calls /\
  map (fun r => (TutorOpenai.model r, TutorOpenai.input_tokens r, TutorOpenai.output_tokens r))
      (map interaction_of calls) = calls /\
  TutorOpenai.total_input_tokens (record_all t calls)
  = TutorOpenai.total_input_tokens t + foldr (fun call acc => call.1.2 + acc) 0 calls /\
  TutorOpenai.total_output_tokens (record_all t calls)
  = TutorOpenai.total_output_tokens t + foldr (fun call acc => call.2 + acc) 0 calls.
Proof.
  split; [apply record_all_interactions|]. split.
  - rewrite map_map. induction calls as [|[[m i] o] calls IH]; [reflexivity|].
    cbn [map]. now rewrite IH.
  - revert t. induction calls as [|[[m i] o] calls IH]; intros t.
    + cbn. lia.
    + unfold record_all in *. cbn [foldl foldr].
      destruct (IH (snd (TutorOpenai.add_interaction t m i o))) as [-> ->].
      cbn [TutorOpenai.add_interaction snd TutorOpenai.total_input_tokens
             TutorOpenai.total_output_tokens fst]. lia.
Qed.

Lemma tutor_run_rotation_witness :
  length TutorOpenai.participants = 3%nat /\
  0 <= 6 /\
  (Z.to_nat 6 < 7)%nat /\
  exists history tracker log,
    TutorOpenai.run_conversation metered_backend "sk-live" 7
    = Done (history, tracker, log) /\
    Z.of_nat (length history) = TutorOpenai.MAX_TURNS.
Proof.
  split; [reflexivity|]. split; [lia|]. split; [lia|].
  destruct (tutor_run_rotation metered_backend "sk-live" TutorOpenai.participants 6 7
              eq_refl ltac:(lia) ltac:(lia))
    as (history & tracker & log & Hrun & Hlen & _).
  exists history, tracker, log. split; [exact Hrun | exact Hlen].
Defined.

Lemma tutor_run_tracker_witness :
  length TutorOpenai.participants = 3%nat /\
  0 <= 6 /\
  (Z.to_nat 6 < 7)%nat /\
  exists history tracker log,
    TutorOpenai.run_conversation metered_backend "sk-live" 7
    = Done (history, tracker, log) /\
    Z.of_nat (length (TutorOpenai.interactions tracker)) <= 6.
Proof.
  split; [reflexivity|]. split; [lia|]. split; [lia|].
  destruct (tutor_run_tracker metered_backend "sk-live" TutorOpenai.participants 6 7
              eq_refl ltac:(lia) ltac:(lia))
    as (history & tracker & log & Hrun & _ & _ & Hlen & _).
  exists history, tracker, log. split; [exact Hrun | exact Hlen].
Defined.

Lemma tutor_main_needs_a_key_witness :
  (Z.to_nat TutorOpenai.MAX_TURNS < 7)%nat /\
  TutorOpenai.main metered_backend (Some "sk-your-key-here") 7 = None.
Proof.
  assert (Hfuel : (Z.to_nat TutorOpenai.MAX_TURNS < 7)%nat) by (vm_compute; lia).
  split; [exact Hfuel|].
  exact (proj1 (tutor_main_needs_a_key metered_backend (Some "sk-your-key-here") 7 Hfuel)
           (or_intror (or_intror eq_refl))).
Defined.

(** The run of [tutor_openai.py] against the metered endpoint: the request
    number 1 is refused, so five interactions are recorded, for 2000 input
    tokens and 200 output tokens in all. *)
Example metered_run_totals :
  match TutorOpenai.run_conversation metered_backend "sk-live" 7 with
  | Done (history, tracker, log) =>
    length history = 6%nat /\
    length (TutorOpenai.interactions tracker) = 5%nat /\
    TutorOpenai.total_input_tokens tracker = 1900 /\
    TutorOpenai.total_output_tokens tracker = 190
  | _ => False
  end.
Proof. vm_compute. repeat split. Qed.

(** ** Sampling parameters that are sent *)

(** X4: the providers read only some keys of a sampling [config]: setting
    any other key (such as ["top_k"]) changes nothing in what [call_ollama]
    and [call_llm] do, and for [call_openai] this also holds of ["top_p"];
    a [config] of [None] given to [call_ollama] is the empty [config], every
    parameter taking its default. *)
Theorem unread_config_keys_change_nothing (backend : OpenAI.Backend)
    (model : string) (messages : list OpenAI.Message) (config : gmap string Q)
    (key : string) (v : Q) (log : list OpenAI.Request) :
  key <> "temperature" -> key <> "max_tokens" ->
  (key <> "top_p" ->
   Main.call_ollama backend model messages (Some (<[key := v]> config)) log
   = Main.call_ollama backend model messages (Some config) log) /\
  (forall api_key tracker,
     TutorOpenai.call_openai backend api_key model messages (<[key := v]> config) tracker log
     = TutorOpenai.call_openai backend api_key model messages config tracker log) /\
  (key <> "top_p" ->
   forall source ollama_url api_key,
     App.call_llm backend model messages (<[key := v]> config) source ollama_url api_key log
     = App.call_llm backend model messages config source ollama_url api_key log) /\
  Main.call_ollama backend model messages None log
  = Main.call_ollama backend model messages (Some ∅) log.
Proof.
  intros Htemp Hmax.
  assert (Hget : forall k d, key <> k -> get (<[key := v]> config) k d = get config k d).
  { intros k d Hk. unfold get. now rewrite lookup_insert_ne. }
  repeat split.
  - intros Htop. unfold Main.call_ollama. now rewrite !Hget.
  - intros api_key tracker. unfold TutorOpenai.call_openai. now rewrite !Hget.
  - intros Htop source ollama_url api_key. unfold App.call_llm. now rewrite !Hget.
Qed.

Lemma unread_config_keys_change_nothing_witness :
  "top_k" <> "temperature" /\ "top_k" <> "max_tokens" /\ "top_k" <> "top_p" /\
  Main.call_ollama echo_backend "gemma3:1b" [] (Some (<["top_k" := (60 # 1)%Q]> ∅)) []
  = Main.call_ollama echo_backend "gemma3:1b" [] (Some ∅) [].
Proof.
  split; [discriminate|]. split; [discriminate|]. split; [discriminate|].
  refine (proj1 (unread_config_keys_change_nothing echo_backend "gemma3:1b" [] ∅
                   "top_k" (60 # 1)%Q [] _ _) _); discriminate.
Defined.

(** ** The flattened history *)

Section Flattening.

Lemma join_snoc (sep x : string) (lines : list string) :
  lines <> [] -> join sep (lines ++ [x]) = join sep lines +:+ sep +:+ x.
Proof.
  unfold join. induction lines as [|y ys IH]; intros Hne; [congruence|].
  destruct ys as [|z zs]; [reflexivity|].
  change (String.concat sep ((y :: z :: zs) ++ [x]))
    with (y +:+ sep +:+ String.concat sep ((z :: zs) ++ [x])).
  rewrite IH by discriminate.
  change (String.concat sep (y :: z :: zs))
    with (y +:+ sep +:+ String.concat sep (z :: zs)).
  now rewrite !string_app_assoc.
Qed.

Lemma main_format_snoc (history : list Main.Entry) (entry : Main.Entry) :
  history <> [] ->
  Main.format_conversation (history ++ [entry])
  = Main.format_conversation history +:+ (nl +:+ nl) +:+
    (Main.speaker entry +:+ ": " +:+ Main.message entry).
Proof.
  intros Hne. unfold Main.format_conversation.
  destruct history as [|e history]; [congruence|].
  cbn [app]. rewrite app_comm_cons, map_app. cbn [map].
  now rewrite join_snoc by discriminate.
Qed.

(** X5: the flattened history only grows at its end: for a history that is
    not empty, the text of the history with one more entry is the text of
    the history, a blank line, and the line of the new entry; this holds in
    [main.py] and, for the internal history, in [app.py]. *)
Theorem flattened_history_grows_at_the_end :
  (forall (history : list Main.Entry) (entry : Main.Entry),
     history <> [] ->
     Main.format_conversation (history ++ [entry])
     = Main.format_conversation history +:+ nl +:+ nl +:+
       Main.speaker entry +:+ ": " +:+ Main.message entry) /\
  (forall (history : list (gmap string string)) (name content : string),
     history <> [] ->
     App.format_conversation_for_prompt
       (history ++ [ {[ "name" := name; "content" := content ]} ])
     = App.format_conversation_for_prompt history +:+ nl +:+ nl +:+
       name +:+ ": " +:+ content).
Proof.
  split.
  - intros history entry Hne. rewrite main_format_snoc by exact Hne.
    now rewrite !string_app_assoc.
  - intros history name content Hne. unfold App.format_conversation_for_prompt.
    destruct history as [|e history]; [congruence|].
    cbn [app]. rewrite app_comm_cons, map_app. cbn [map].
    rewrite join_snoc by discriminate. rewrite entry_name, entry_content.
    now rewrite !string_app_assoc.
Qed.

(** X6: the flattened history does not delimit what was said: a single
    reply whose text goes on with a blank line and [<speaker>: <text>] is
    flattened exactly as that reply followed by an entry of that speaker, and
    so builds the same next user message. *)
Theorem reply_can_read_as_two_turns (speaker_name : string)
    (history : list Main.Entry) (s1 m1 s2 m2 : string) :
  Main.format_conversation
    (history ++ [ {| Main.speaker := s1;
                     Main.message := m1 +:+ nl +:+ nl +:+ s2 +:+ ": " +:+ m2 |} ])
  = Main.format_conversation
      (history ++ [ {| Main.speaker := s1; Main.message := m1 |};
                    {| Main.speaker := s2; Main.message := m2 |} ]) /\
  Main.user_prompt speaker_name
    (history ++ [ {| Main.speaker := s1;
                     Main.message := m1 +:+ nl +:+ nl +:+ s2 +:+ ": " +:+ m2 |} ])
  = Main.user_prompt speaker_name
      (history ++ [ {| Main.speaker := s1; Main.message := m1 |};
                    {| Main.speaker := s2; Main.message := m2 |} ]).
Proof.
  assert (Hformat :
    Main.format_conversation
      (history ++ [ {| Main.speaker := s1;
                       Main.message := m1 +:+ nl +:+ nl +:+ s2 +:+ ": " +:+ m2 |} ])
    = Main.format_conversation
        (history ++ [ {| Main.speaker := s1; Main.message := m1 |};
                      {| Main.speaker := s2; Main.message := m2 |} ])).
  { replace (history ++ [ {| Main.speaker := s1; Main.message := m1 |};
                          {| Main.speaker := s2; Main.message := m2 |} ])
      with ((history ++ [ {| Main.speaker := s1; Main.message := m1 |} ])
            ++ [ {| Main.speaker := s2; Main.message := m2 |} ])
      by now rewrite <- (assoc_L (++)).
    rewrite (main_format_snoc (history ++ _)) by (destruct history; discriminate).
    destruct history as [|e history].
    - cbn [app Main.format_conversation map join String.concat Main.speaker Main.message].
      now rewrite !string_app_assoc.
    - rewrite !main_format_snoc by discriminate.
      cbn [Main.speaker Main.message]. now rewrite !string_app_assoc. }
  split; [exact Hformat|].
  unfold Main.user_prompt. rewrite Hformat.
  destruct history; reflexivity.
Qed.

(** X7: the three programs flatten a history alike: [app.py] flattens its
    internal history as [main.py] flattens the entries with the same names and
    contents, an entry without ["name"] counting as said by [Unknown] and one
    without ["content"] as empty; [tutor_openai.py] flattens as [main.py]. *)
Theorem histories_are_flattened_alike :
  (forall history : list (gmap string string),
     App.format_conversation_for_prompt history
     = Main.format_conversation
         (map (fun entry => {| Main.speaker := get entry "name" "Unknown";
                               Main.message := get entry "content" EmptyString |})
              history)) /\
  (forall history : list TutorOpenai.Entry,
     TutorOpenai.format_conversation history
     = Main.format_conversation
         (map (fun entry => {| Main.speaker := TutorOpenai.speaker entry;
                               Main.message := TutorOpenai.message entry |})
              history)) /\
  App.format_conversation_for_prompt [ {[ "content" := "Hello" ]} ] = "Unknown: Hello" /\
  App.format_conversation_for_prompt [ {[ "name" := "Ann" ]} ] = "Ann: ".
Proof.
  repeat split.
  - intros history. unfold App.format_conversation_for_prompt, Main.format_conversation.
    destruct history as [|e history]; [reflexivity|].
    cbn [map]. now rewrite map_map.
  - intros history. unfold TutorOpenai.format_conversation, Main.format_conversation.
    destruct history as [|e history]; [reflexivity|].
    cbn [map]. now rewrite map_map.
Qed.

End Flattening.

Lemma flattened_history_grows_at_the_end_witness :
  [ {| Main.speaker := "Professor Maya"; Main.message := "print('Hello, World!')" |} ] <> [] /\
  Main.format_conversation
    ([ {| Main.speaker := "Professor Maya"; Main.message := "print('Hello, World!')" |} ]
     ++ [ {| Main.speaker := "Curious George"; Main.message := "Why the quotes?" |} ])
  = Main.format_conversation
      [ {| Main.speaker := "Professor Maya"; Main.message := "print('Hello, World!')" |} ]
    +:+ nl +:+ nl +:+ "Curious George" +:+ ": " +:+ "Why the quotes?".
Proof.
  split; [discriminate|].
  refine (proj1 flattened_history_grows_at_the_end _
            {| Main.speaker := "Curious George"; Main.message := "Why the quotes?" |} _).
  discriminate.
Defined.

(** ** The generator of [app.py], one step at a time *)

Section Steps.
Import OpenAI.

Variable backend : Backend.
Variable args : App.Inputs.

(** What one [next] does to the frame and to the log. *)
Lemma app_next_step (g : App.Frame) (log : list Request) :
  match App.next backend args g log with
  | (App.Yield shown, g', log') =>
    (exists req, log' = log ++ [req]) /\
    shown = App.messages g' /\
    (exists message, App.messages g' = App.messages g ++ [message]) /\
    (exists entry,
       App.conversation_history_internal g'
       = App.conversation_history_internal g ++ [entry]) /\
    App.point g' = App.AtYield
  | (App.StopIteration, g', log') =>
    log' = log /\
    App.messages g' = App.messages g /\
    App.conversation_history_internal g'
    = App.conversation_history_internal g /\
    App.point g' = App.Finished /\
    App.next backend args g' log' = (App.StopIteration, g', log')
  | (App.Raise _, _, log') => log' = log
  end.
Proof.
  assert (Hloop : forall turn,
    match App.loop_from_test backend args turn (App.messages g)
            (App.conversation_history_internal g) log with
    | (App.Yield shown, g', log') =>
      (exists req, log' = log ++ [req]) /\
      shown = App.messages g' /\
      (exists message, App.messages g' = App.messages g ++ [message]) /\
      (exists entry,
         App.conversation_history_internal g'
         = App.conversation_history_internal g ++ [entry]) /\
      App.point g' = App.AtYield
    | (App.StopIteration, g', log') =>
      log' = log /\
      App.messages g' = App.messages g /\
      App.conversation_history_internal g'
      = App.conversation_history_internal g /\
      App.point g' = App.Finished /\
      App.next backend args g' log' = (App.StopIteration, g', log')
    | (App.Raise _, _, log') => log' = log
    end).
  { intros turn. unfold App.loop_from_test. case_bool_decide.
    - destruct (App.participants args !! _) as [p|]; [|reflexivity].
      destruct (app_call_llm_spec backend args p
                  (App.user_prompt (App.topic args) p
                     (App.conversation_history_internal g)) log)
        as (req & Hcall & _).
      fold (system_message (App.prompt p)).
      fold (user_message (App.user_prompt (App.topic args) p
                            (App.conversation_history_internal g))).
      rewrite Hcall. cbn beta iota zeta. cbn [App.messages
        App.conversation_history_internal App.point].
      repeat split; eauto.
    - cbn. repeat split. }
  unfold App.next at 1. destruct (App.point g) eqn:Hpoint.
  - apply Hloop.
  - apply Hloop.
  - repeat split; try reflexivity; try assumption.
    unfold App.next. now rewrite Hpoint.
Qed.


Lemma app_consume_chat_length (fuel : nat) :
  forall (g g' : App.Frame) (shown shown' : list (list Message))
         (log log' : list Request),
    App.consume backend args fuel g shown log = Done (g', shown', log') ->
    length (App.messages g) = length (App.conversation_history_internal g) ->
    length (App.messages g') = length (App.conversation_history_internal g').
Proof.
  induction fuel as [|fuel IH]; intros g g' shown shown' log log' Hrun Hlen;
    [discriminate|].
  cbn [App.consume] in Hrun.
  pose proof (app_next_step g log) as Hnext.
  destruct (App.next backend args g log) as [[[messages| |e] g1] log1];
    [|injection Hrun as <- _ _|discriminate].
  - destruct Hnext as (_ & _ & [m Hm] & [entry He] & _).
    apply (IH _ _ _ _ _ _ Hrun). rewrite Hm, He, !length_app. cbn. lia.
  - destruct Hnext as (_ & -> & -> & _). exact Hlen.
Qed.

(** X8: the generator delivers the conversation incrementally: consumed to
    its end with enough fuel, it has yielded [max_turns] lists, the [i]-th of
    them (from 0) holding the first [i + 1] chatbot messages of the final
    list, which has [max_turns] messages; message [i] has the role
    [assistant] and its content is the name of the speaker of turn [i]
    between [**], the avatar, a colon, a blank line and the content of entry
    [i] of the internal history. *)
Theorem generator_delivers_turn_by_turn (fuel : nat) :
  0 <= App.max_turns args ->
  (Z.to_nat (App.max_turns args) < fuel)%nat ->
  exists g yielded log,
    App.consume backend args fuel App.run_conversation_step [] []
    = Done (g, yielded, log) /\
    Z.of_nat (length yielded) = App.max_turns args /\
    Z.of_nat (length (App.messages g)) = App.max_turns args /\
    forall i : Z, 0 <= i < App.max_turns args ->
      exists p text,
        App.participants args !! Z.to_nat (i `mod` 3) = Some p /\
        yielded !! Z.to_nat i = Some (take (S (Z.to_nat i)) (App.messages g)) /\
        App.conversation_history_internal g !! Z.to_nat i
        = Some {[ "name" := App.name p; "content" := text ]} /\
        App.messages g !! Z.to_nat i
        = Some {| role := "assistant";
                  content := "**" +:+ App.name p +:+ "** " +:+ App.avatar p +:+ ":"
                             +:+ nl +:+ nl +:+ text |}.
Proof.
  intros Hmax Hfuel.
  destruct (app_run_spec backend args fuel Hmax Hfuel)
    as (g & yielded & log & Hrun & Hhist & _ & Hyielded & Hturns).
  exists g, yielded, log. split; [exact Hrun|]. split; [exact Hyielded|]. split.
  - rewrite (app_consume_chat_length fuel _ _ _ _ _ _ Hrun eq_refl). exact Hhist.
  - intros i Hi. destruct (Hturns i Hi) as (p & req & Hp & _ & _ & Hentry & Hy & Hchat).
    exists p. eexists. split; [exact Hp|]. split; [exact Hy|].
    split; [exact Hentry | exact Hchat].
Qed.

End Steps.

Lemma generator_delivers_turn_by_turn_witness :
  0 <= App.max_turns App.default_inputs /\
  (Z.to_nat (App.max_turns App.default_inputs) < 21)%nat /\
  exists g yielded log,
    App.consume flaky_backend App.default_inputs 21 App.run_conversation_step [] []
    = Done (g, yielded, log) /\
    Z.of_nat (length yielded) = 20.
Proof.
  assert (Hmax : 0 <= App.max_turns App.default_inputs) by (vm_compute; discriminate).
  assert (Hfuel : (Z.to_nat (App.max_turns App.default_inputs) < 21)%nat)
    by (vm_compute; lia).
  split; [exact Hmax|]. split; [exact Hfuel|].
  destruct (generator_delivers_turn_by_turn flaky_backend App.default_inputs 21 Hmax Hfuel)
    as (g & yielded & log & Hrun & Hlen & _).
  exists g, yielded, log. split; [exact Hrun | exact Hlen].
Defined.

(** ** The model lists of the page *)

Section Discovery.

Lemma replace_from_changes (old new : string) (s : string) :
  forall skip,
    replace_from old new skip s = string_drop skip s \/
    contains new (replace_from old new skip s) = true.
Proof.
  induction s as [|c s IH]; intros skip.
  - left. destruct skip; reflexivity.
  - destruct skip as [|skip]; cbn [replace_from string_drop].
    + destruct (startswith (String c s) old).
      * right. apply contains_startswith, startswith_app.
      * destruct (IH 0%nat) as [Hsame | Hnew].
        -- left. cbn [string_drop] in Hsame. now rewrite Hsame.
        -- right. cbn [contains]. rewrite Hnew. apply orb_true_r.
    + apply IH.
Qed.

Lemma replace_absent (old new s : string) :
  contains old s = false -> replace s old new = s.
Proof.
  unfold replace. induction s as [|c s IH]; intros Habsent; [reflexivity|].
  cbn [contains] in Habsent. apply orb_false_iff in Habsent as [Hhere Hlater].
  cbn [replace_from]. rewrite Hhere. now rewrite IH.
Qed.

Lemma string_length_app (a b : string) :
  String.length (a +:+ b) = (String.length a + String.length b)%nat.
Proof.
  induction a as [|c a IH]; [reflexivity|].
  rewrite string_app_cons. cbn [String.length]. now rewrite IH.
Qed.

(** A root without ["/v1"], followed by ["/v1"], has its only occurrence of
    ["/v1"] at the end. *)
Lemma replace_trailing_v1 (root : string) :
  contains "/v1" root = false ->
  replace (root +:+ "/v1") "/v1" "/api/tags" = root +:+ "/api/tags".
Proof.
  unfold replace. induction root as [|c root IH]; intros Habsent; [reflexivity|].
  cbn [contains] in Habsent. apply orb_false_iff in Habsent as [Hhere Hlater].
  rewrite !string_app_cons. cbn [replace_from].
  assert (Hstart : startswith (String c (root +:+ "/v1")) "/v1" = false).
  { destruct (startswith (String c (root +:+ "/v1")) "/v1") eqn:Hs; [|reflexivity].
    exfalso. cbn [startswith] in Hs, Hhere.
    apply andb_true_iff in Hs as [Hc Hs]. rewrite Hc in Hhere. cbn [andb] in Hhere.
    destruct root as [|c1 root]; [discriminate Hs|].
    rewrite string_app_cons in Hs.
    apply andb_true_iff in Hs as [Hc1 Hs]. rewrite Hc1 in Hhere. cbn [andb] in Hhere.
    destruct root as [|c2 root]; [discriminate Hs|].
    rewrite string_app_cons in Hs.
    apply andb_true_iff in Hs as [Hc2 _]. rewrite Hc2 in Hhere. discriminate Hhere. }
  rewrite Hstart. now rewrite IH.
Qed.

(** X12: the address asked for the list of models always contains
    ["/api/tags"] and is never the base URL itself; for a base URL without
    ["/v1"] it is the base URL followed by ["/api/tags"], and for a base URL
    that ends in ["/v1"], with no ["/v1"] before, it is the base URL with that
    ending replaced by ["/api/tags"]. *)
Theorem api_url_points_at_the_tags (base_url : string) :
  contains "/api/tags" (App.api_url base_url) = true /\
  App.api_url base_url <> base_url /\
  (contains "/v1" base_url = false ->
   App.api_url base_url = base_url +:+ "/api/tags") /\
  (forall root,
     contains "/v1" root = false -> base_url = root +:+ "/v1" ->
     App.api_url base_url = root +:+ "/api/tags").
Proof.
  assert (Hlonger : forall s : string, s +:+ "/api/tags" <> s).
  { intros s H. apply (f_equal String.length) in H.
    rewrite string_length_app in H. cbn in H. lia. }
  unfold App.api_url. repeat split.
  - case_bool_decide as Hsame.
    + apply contains_app_r, contains_startswith. reflexivity.
    + destruct (replace_from_changes "/v1" "/api/tags" base_url 0) as [H|H];
        [contradiction | exact H].
  - case_bool_decide as Hsame; [apply Hlonger | exact Hsame].
  - intros Habsent. rewrite (replace_absent _ _ _ Habsent).
    now rewrite bool_decide_eq_true_2.
  - intros root Habsent ->. rewrite (replace_trailing_v1 root Habsent).
    rewrite bool_decide_eq_false_2; [reflexivity|].
    intros H. apply (f_equal String.length) in H.
    rewrite !string_length_app in H. cbn in H. lia.
Qed.

Variable net : App.Network.

Lemma mapM_name_missing (data : list (gmap string string)) (model : gmap string string) :
  model ∈ data -> model !! "name" = None ->
  mapM (fun model : gmap string string => model !! "name") data = None.
Proof.
  intros Hin Hmissing.
  destruct (mapM _ data) as [names|] eqn:Hnames; [|reflexivity].
  apply mapM_Some in Hnames. apply list_elem_of_lookup in Hin as [i Hi].
  destruct (Forall2_lookup_l _ _ _ _ _ Hnames Hi) as (name & _ & Hname).
  congruence.
Qed.

(** X10: [get_ollama_models] falls back step by step.  When the request to
    the tags address is answered with status 200 and every listed model has a
    name, the result is the list of these names, in order, whatever the client
    listing would give; when the answer has no key ["models"] the result is
    the empty list.  When the request raises, or its status is not 200, or its
    body is not JSON, or one listed model has no name, the result is the list
    of the client listing, and the three built-in names if that raises too. *)
Theorem ollama_models_fall_back (base_url : string) :
  (forall response data names,
     App.http_get net (App.api_url base_url) = Some response ->
     App.status_code response = 200 ->
     App.json response = Some (Some data) ->
     Forall2 (fun model name => model !! "name" = Some name) data names ->
     App.get_ollama_models net base_url = names) /\
  (forall response,
     App.http_get net (App.api_url base_url) = Some response ->
     App.status_code response = 200 ->
     App.json response = Some None ->
     App.get_ollama_models net base_url = []) /\
  (App.http_get net (App.api_url base_url) = None \/
   (exists response,
      App.http_get net (App.api_url base_url) = Some response /\
      (App.status_code response <> 200 \/
       App.json response = None \/
       exists data model,
         App.json response = Some (Some data) /\ model ∈ data /\ model !! "name" = None)) ->
   App.get_ollama_models net base_url
   = match App.models_list net base_url with
     | App.Listed ids => ids
     | App.ListingRaises _ => ["llama3.2:latest"; "llama3.2:1b"; "gemma:2b"]
     end).
Proof.
  unfold App.get_ollama_models, App.direct_listing. repeat split.
  - intros response data names -> Hstatus Hjson Hnames.
    rewrite bool_decide_eq_true_2, Hjson by exact Hstatus. cbn [default id].
    assert (H : mapM (fun model : gmap string string => model !! "name") data = Some names)
      by (apply mapM_Some; exact Hnames).
    now rewrite H.
  - intros response -> Hstatus Hjson.
    now rewrite bool_decide_eq_true_2, Hjson by exact Hstatus.
  - intros [-> | (response & -> & [Hstatus | [Hjson | (data & model & Hjson & Hin & Hname)]])].
    + reflexivity.
    + now rewrite bool_decide_eq_false_2 by exact Hstatus.
    + rewrite Hjson. now case_bool_decide.
    + rewrite Hjson. cbn [default id]. rewrite (mapM_name_missing data model Hin Hname).
      now case_bool_decide.
Qed.

(** X11: whatever the network does, the dropdown that
    [update_model_dropdown] builds has at least one choice and its value is
    the first of its choices, so a value that can be selected; for the source
    [OpenAI API] the choices are the curated list, with no use of the network,
    and when the local server lists no model the only choice is the text
    [Error: No models found]. *)
Theorem dropdown_value_is_a_choice (source ollama_url : string) :
  let dropdown := App.update_model_dropdown net source ollama_url in
  App.choices dropdown <> [] /\
  (exists model,
     App.value dropdown = Some model /\
     head (App.choices dropdown) = Some model /\
     model ∈ App.choices dropdown) /\
  App.allow_custom_value dropdown = false /\
  (source = "OpenAI API" ->
   App.choices dropdown = ["gpt-4o"; "gpt-4o-mini"; "o1-preview"; "o1-mini"; "gpt-3.5-turbo"]
   /\ App.value dropdown = Some "gpt-4o") /\
  (source <> "OpenAI API" ->
   (App.get_ollama_models net ollama_url = [] ->
    App.choices dropdown = ["Error: No models found"]) /\
   (App.get_ollama_models net ollama_url <> [] ->
    App.choices dropdown = App.get_ollama_models net ollama_url)).
Proof.
  unfold App.update_model_dropdown. cbn zeta.
  set (models := if bool_decide (source = "OpenAI API") then _ else _).
  cbn [App.choices App.value App.allow_custom_value].
  split; [destruct models; discriminate|].
  split; [destruct models as [|m models]; eexists; (split; [reflexivity|]);
          (split; [reflexivity | apply elem_of_cons; now left])|].
  split; [reflexivity|]. split.
  - intros Hsource. subst models. rewrite bool_decide_eq_true_2 by exact Hsource.
    split; reflexivity.
  - intros Hsource. subst models. rewrite bool_decide_eq_false_2 by exact Hsource.
    split; intros H.
    + now rewrite H.
    + destruct (App.get_ollama_models net ollama_url); [congruence | reflexivity].
Qed.

End Discovery.

(** A local server that answers the tags address with two models. *)
Example local_server_lists_two_models :
  App.get_ollama_models
    {| App.http_get := fun url =>
         if bool_decide (url = "http://localhost:11434/api/tags")
         then Some {| App.status_code := 200;
                      App.json := Some (Some [ {[ "name" := "llama3.2:latest" ]};
                                               {[ "name" := "gemma3:1b" ]} ]) |}
         else None;
       App.models_list := fun _ => App.ListingRaises connection_error |}
    "http://localhost:11434/v1"
  = ["llama3.2:latest"; "gemma3:1b"].
Proof. vm_compute. reflexivity. Qed.

Lemma api_url_points_at_the_tags_witness :
  contains "/v1" "http://localhost:11434" = false /\
  App.api_url "http://localhost:11434/v1" = "http://localhost:11434/api/tags".
Proof.
  assert (H : contains "/v1" "http://localhost:11434" = false) by (vm_compute; reflexivity).
  split; [exact H|].
  exact (proj2 (proj2 (proj2 (api_url_points_at_the_tags "http://localhost:11434/v1")))
           "http://localhost:11434" H eq_refl).
Defined.

Lemma ollama_models_fall_back_witness :
  App.http_get {| App.http_get := fun _ => None;
                  App.models_list := fun _ => App.ListingRaises connection_error |}
    (App.api_url "http://localhost:11434/v1") = None /\
  App.get_ollama_models
    {| App.http_get := fun _ => None;
       App.models_list := fun _ => App.ListingRaises connection_error |}
    "http://localhost:11434/v1"
  = ["llama3.2:latest"; "llama3.2:1b"; "gemma:2b"].
Proof.
  split; [reflexivity|].
  exact (proj2 (proj2 (ollama_models_fall_back
                         {| App.http_get := fun _ => None;
                            App.models_list := fun _ => App.ListingRaises connection_error |}
                         "http://localhost:11434/v1"))
           (or_introl eq_refl)).
Defined.

Lemma dropdown_value_is_a_choice_witness :
  "OpenAI API" = "OpenAI API" /\
  App.value
    (App.update_model_dropdown
       {| App.http_get := fun _ => None;
          App.models_list := fun _ => App.ListingRaises connection_error |}
       "OpenAI API" "http://localhost:11434/v1")
  = Some "gpt-4o".
Proof.
  split; [reflexivity|].
  exact (proj2 (proj1 (proj2 (proj2 (proj2
           (dropdown_value_is_a_choice
              {| App.http_get := fun _ => None;
                 App.models_list := fun _ => App.ListingRaises connection_error |}
              "OpenAI API" "http://localhost:11434/v1")))) eq_refl)).
Defined.

(** ** What the runs send and show *)

Section RunsAgain.
Import OpenAI.

Variable backend : Backend.



End RunsAgain.


